(** * The layered todo application (2-layers/app.py)

    A shallow embedding of the data layer ([TodoDatabase], [TodoItem]), the
    service layer ([TodoService], [TodoItemResult], [TodoListResult]) and the
    injected configuration ([TodoPermissionPolicy], [TodoSchema],
    [TodoServiceConfig]) of the application, followed by the properties of
    the service layer.

    Python exceptions are values of [error]; a call that may raise returns
    [result A].  The class attribute [TodoDatabase.db] is threaded
    explicitly.  Dictionaries whose enumeration order is observable are
    association lists in insertion order ([odict]); the request body is a
    finite map.  Dictionaries that are shared by reference (the pagination
    parameters of a list result) live in a [heap]. *)

From Stdlib Require Import ZArith String List Bool Lia DecimalString.
From Stdlib Require DecimalZ DecimalPos.
From stdpp Require Import base numbers option list strings gmap.

Set Warnings "-register-all".

Open Scope string_scope.
Open Scope Z_scope.

(** ** Exceptions *)

Inductive error : Type :=
| NoResultError (id_ : Z)
| ValidationError (fields : list string)
| PermissionDenied (action : string)
| AttributeError (name : string)
| KeyError (key : string)
| InvalidArgument.

Definition result (A : Type) : Type := (error + A)%type.

Definition raise {A : Type} (e : error) : result A := inl e.
Definition ok {A : Type} (a : A) : result A := inr a.

Definition rbind {A B : Type} (m : result A) (k : A -> result B) : result B :=
  match m with
  | inl e => inl e
  | inr a => k a
  end.

Declare Scope result_scope.
Delimit Scope result_scope with result.
Notation "x <~ m ;; k" := (rbind m (fun x => k))
  (at level 100, m at next level, right associativity) : result_scope.
Open Scope result_scope.

(** ** Insertion-ordered dictionaries

    A Python [dict] enumerates its keys in insertion order, and assigning to
    a key that is present keeps the position of that key. *)

Abbreviation odict K V := (list (K * V)).

Section odict.
Context {K V : Type} `{EqDecision K}.

Fixpoint od_get (k : K) (d : odict K V) : option V :=
  match d with
  | [] => None
  | (k', v) :: d' => if decide (k = k') then Some v else od_get k d'
  end.

Fixpoint od_set (k : K) (v : V) (d : odict K V) : odict K V :=
  match d with
  | [] => [(k, v)]
  | (k', v') :: d' =>
      if decide (k = k') then (k, v) :: d' else (k', v') :: od_set k v d'
  end.

Definition od_keys (d : odict K V) : list K := map fst d.
Definition od_values (d : odict K V) : list V := map snd d.
End odict.

(** ** Needs and identities (flask_principal) *)

(** [Need] is a pair of a method and a value; [UserNeed] and [RoleNeed] fix
    the method.  The value of a [UserNeed] built from [item.user_id] is
    whatever the item holds, possibly [None]. *)
Inductive Need : Type :=
| UserNeed (user : option Z)
| RoleNeed (role : string).

#[global] Instance Need_eq_dec : EqDecision Need.
Proof. solve_decision. Defined.

(** An identity: its [id] ([None] for [AnonymousIdentity]) and the set of
    needs it provides. *)
Record Identity : Type := mkIdentity {
  identity_id : option Z;
  provides : list Need
}.

Definition AnonymousIdentity : Identity :=
  {| identity_id := None; provides := [] |}.

(** ** Data layer *)

Record TodoItem : Type := mkTodoItem {
  item_id : Z;
  title : string;
  priority : Z;
  user_id : option Z
}.

Module TodoDatabase.
Definition db : Type := odict Z TodoItem.

Definition empty : db := [].

Definition add (item : TodoItem) (d : db) : db :=
  od_set (item_id item) item d.

Definition get (id_ : Z) (d : db) : result TodoItem :=
  match od_get id_ d with
  | None => raise (NoResultError id_)
  | Some item => ok item
  end.

Definition get_all (user : option Z) (d : db) : list TodoItem :=
  filter (fun item => user_id item = user) (od_values d).
End TodoDatabase.

(** ** Permission policy *)

Inductive Generator : Type :=
| Owner
| AuthenticatedUser.

Definition needs (g : Generator) (item : option TodoItem) : result (list Need) :=
  match g with
  | Owner =>
      match item with
      | None => raise (AttributeError "user_id")
      | Some it => ok [UserNeed (user_id it)]
      end
  | AuthenticatedUser => ok [RoleNeed "authenticated_user"]
  end.

Module TodoPermissionPolicy.
Definition can_create : list Generator := [AuthenticatedUser].
Definition can_read : list Generator := [Owner].
Definition can_search : list Generator := [].

(** [getattr(self, f"can_{action}")] *)
Definition generators (action : string) : result (list Generator) :=
  if decide (action = "create") then ok can_create
  else if decide (action = "read") then ok can_read
  else if decide (action = "search") then ok can_search
  else raise (AttributeError (String.append "can_" action)).

(** The two nested loops of [__init__], appending to [acc]. *)
Fixpoint collect (gens : list Generator) (item : option TodoItem)
    (acc : list Need) : result (list Need) :=
  match gens with
  | [] => ok acc
  | g :: gens' =>
      ns <~ needs g item ;;
      collect gens' item (acc ++ ns)
  end.

(** [__init__]: the needs handed to [Permission.__init__]. *)
Definition init (action : string) (item : option TodoItem)
    : result (list Need) :=
  gens <~ generators action ;;
  collect gens item [].
End TodoPermissionPolicy.

(** Modelled from the spec: [Permission.allows] of flask_principal, which
    [TodoPermissionPolicy] inherits and which is not part of the repository.
    Access is granted iff the identity's claims intersect the required needs;
    an empty set of required needs means no restriction. *)
Definition allows (required : list Need) (identity : Identity) : bool :=
  match required with
  | [] => true
  | _ => existsb (fun n => bool_decide (n ∈ provides identity)) required
  end.

(** Modelled from the spec: [Service.check_permission] and
    [Service.require_permission] of invenio_records_resources, the base class
    of [TodoService]: build the policy for the action, ask it whether it
    allows the identity, and fail with [PermissionDenied] when it does not. *)
Definition check_permission (identity : Identity) (action : string)
    (item : option TodoItem) : result bool :=
  required <~ TodoPermissionPolicy.init action item ;;
  ok (allows required identity).

Definition require_permission (identity : Identity) (action : string)
    (item : option TodoItem) : result unit :=
  granted <~ check_permission identity action item ;;
  if granted : bool then ok tt else raise (PermissionDenied action).

(** ** Representations

    What [to_dict] returns and what the request body parser delivers: plain
    nested mappings, sequences, strings, numbers and booleans. *)

Inductive json : Type :=
| JNull
| JBool (b : bool)
| JInt (z : Z)
| JStr (s : string)
| JList (l : list json)
| JDict (d : list (string * json)).

(** ** Schema *)

Inductive field : Type -> Type :=
| Int (required : bool) (missing : option Z) : field Z
| String (required : bool) (missing : option string) : field string.

Module TodoSchema.
Definition id : field Z := Int true None.
Definition title : field string := String true None.
Definition priority : field Z := Int false (Some 3).

(** The loaded object: [obj['id']], [obj['title']], [obj['priority']]. *)
Record obj : Type := mkObj {
  obj_id : Z;
  obj_title : string;
  obj_priority : Z
}.
End TodoSchema.

(** Modelled from the spec: field deserialization and [Schema.load] of
    marshmallow, which is not part of the repository.  A field that is absent
    from the input is an error when it is required and takes its [missing]
    value otherwise; a field that is present must carry a value of the
    declared type (an integer for [Int], a string for [String]).  Keys of the
    input that the schema does not declare are not looked at.  The outer
    [None] is a failed field. *)
Definition deserialize {A : Type} (f : field A) (raw : option json)
    : option (option A) :=
  match f in field T return option (option T) with
  | Int required missing =>
      match raw with
      | None => if required then None else Some missing
      | Some (JInt z) => Some (Some z)
      | Some _ => None
      end
  | String required missing =>
      match raw with
      | None => if required then None else Some missing
      | Some (JStr s) => Some (Some s)
      | Some _ => None
      end
  end.

Definition field_error {A : Type} (name : string) (r : option A)
    : list string :=
  match r with
  | None => [name]
  | Some _ => []
  end.

Definition load (data : gmap string json) : result TodoSchema.obj :=
  let r_id := deserialize TodoSchema.id (data !! "id") in
  let r_title := deserialize TodoSchema.title (data !! "title") in
  let r_priority := deserialize TodoSchema.priority (data !! "priority") in
  match r_id, r_title, r_priority with
  | Some (Some i), Some (Some t), Some (Some p) =>
      ok (TodoSchema.mkObj i t p)
  | _, _, _ =>
      raise (ValidationError (field_error "id" r_id
                              ++ field_error "title" r_title
                              ++ field_error "priority" r_priority))
  end.

(** ** Pagination *)

(** Modelled from the spec: [Pagination] of invenio_records_resources, which
    is not part of the repository.  The constructor rejects [size < 1] and
    [page < 1]; the indices of the window are clamped into [[0, total]]. *)
Record Pagination : Type := mkPagination {
  size : Z;
  page : Z;
  total : Z
}.

Definition compute (size_ page_ total_ : Z) : result Pagination :=
  if (size_ <? 1) || (page_ <? 1) then raise InvalidArgument
  else ok (mkPagination size_ page_ total_).

Definition clamp (total_ x : Z) : Z := Z.max 0 (Z.min x total_).

Definition from_idx (p : Pagination) : Z :=
  clamp (total p) ((page p - 1) * size p).

Definition to_idx (p : Pagination) : Z :=
  clamp (total p) ((page p - 1) * size p + size p).

Definition has_prev (p : Pagination) : bool := 1 <? page p.

Definition has_next (p : Pagination) : bool := to_idx p <? total p.

Definition prev_page (p : Pagination) : option Pagination :=
  if has_prev p then Some (mkPagination (size p) (page p - 1) (total p))
  else None.

Definition next_page (p : Pagination) : option Pagination :=
  if has_next p then Some (mkPagination (size p) (page p + 1) (total p))
  else None.

(** ** List slicing

    [l[a:b]] for integers [a] and [b]: a negative index counts from the end,
    and both indices are then cut to the length of the list. *)
Definition slice_index (len i : Z) : Z :=
  if i <? 0 then Z.max (i + len) 0 else Z.min i len.

Definition py_slice {A : Type} (l : list A) (a b : Z) : list A :=
  let len := Z.of_nat (List.length l) in
  let lo := slice_index len a in
  let hi := slice_index len b in
  take (Z.to_nat (hi - lo)) (drop (Z.to_nat lo) l).

(** ** Shared dictionaries

    The dictionary of pagination parameters is created once by
    [TodoService.search] and then reached through several references (the
    list result and the context of its links template).  Such dictionaries
    are heap cells; a fresh one is put at the end of the heap. *)

Abbreviation loc := nat (only parsing).
Abbreviation heap := (list (odict string Z)) (only parsing).

Definition alloc (d : odict string Z) (h : heap) : loc * heap :=
  (List.length h, (h ++ [d])%list).

(** ** Link templates *)

(** A value in the variable bag of a template: a string, a number, or a
    reference to a dictionary. *)
Inductive var : Type :=
| VStr (s : string)
| VInt (z : Z)
| VRef (l : loc).

Definition bag : Type := odict string var.

(** The expressions of the URI templates of this configuration: literal
    text, [{+name}], [{name}] and [{?name*}]. *)
Inductive part : Type :=
| Lit (s : string)
| Reserved (name : string)
| Simple (name : string)
| QueryExplode (name : string).

Definition uritemplate : Type := list part.

Definition string_of_Z (z : Z) : string :=
  NilZero.string_of_int (Z.to_int z).

Fixpoint query_pairs (d : odict string Z) : list string :=
  match d with
  | [] => []
  | (k, v) :: d' =>
      String.append k (String.append "=" (string_of_Z v)) :: query_pairs d'
  end.

Definition query_string (d : odict string Z) : string :=
  match query_pairs d with
  | [] => ""
  | ps => String.append "?" (String.concat "&" ps)
  end.

(** Modelled from the spec: URI template substitution (RFC 6570), done by
    the uritemplate package.  A variable without a value expands to nothing;
    [{?name*}] expands a mapping as a query string.  The values bound in this
    configuration are an unescaped site URL and integers, so percent-encoding
    is not modelled. *)
Definition expand_part (vars : bag) (h : heap) (p : part) : string :=
  match p with
  | Lit s => s
  | Reserved name | Simple name =>
      match od_get name vars with
      | Some (VStr s) => s
      | Some (VInt z) => string_of_Z z
      | _ => ""
      end
  | QueryExplode name =>
      match od_get name vars with
      | Some (VRef l) =>
          match h !! l with
          | Some d => query_string d
          | None => ""
          end
      | Some (VStr s) => String.append "?" (String.append name (String.append "=" s))
      | Some (VInt z) => query_string [(name, z)]
      | None => ""
      end
  end.

Definition expand_uri (t : uritemplate) (vars : bag) (h : heap) : string :=
  String.concat "" (map (expand_part vars h) t).

(** [Link(uritemplate, when=..., vars=...)]: [when] receives the object and
    the context, [vars] receives the object and the variable bag and updates
    the bag, or a dictionary the bag refers to, in place. *)
Record Link (A : Type) : Type := mkLink {
  link_uritemplate : uritemplate;
  link_when : option (A -> bag -> bool);
  link_vars : option (A -> bag -> heap -> result (bag * heap))
}.

Arguments mkLink {A} _ _ _.
Arguments link_uritemplate {A} _.
Arguments link_when {A} _.
Arguments link_vars {A} _.

(** [app.config["SITE_API_URL"]], set by [create_app]. *)
Definition SITE_API_URL : string := "http://127.0.0.1:5000".

(** Modelled from the spec: [Link] and [LinksTemplate] of
    invenio_records_resources, which are not part of the repository.  A
    template whose guard is false is left out.  Otherwise a fresh variable
    bag is built, seeded with the site URL and a copy of the extra variables
    (a dictionary they refer to is copied to a fresh cell), the [vars]
    function is run on it, and the pattern is substituted.  Names appear in
    the output in the order of the templates. *)
Fixpoint fresh_copy (context : bag) (h : heap) : bag * heap :=
  match context with
  | [] => ([], h)
  | (k, VRef l) :: context' =>
      let (l', h') := alloc (default [] (h !! l)) h in
      let (vars, h'') := fresh_copy context' h' in
      ((k, VRef l') :: vars, h'')
  | (k, v) :: context' =>
      let (vars, h') := fresh_copy context' h in
      ((k, v) :: vars, h')
  end.

Definition should_render {A : Type} (link : Link A) (obj : A) (context : bag)
    : bool :=
  match link_when link with
  | Some when => when obj context
  | None => true
  end.

Definition link_expand {A : Type} (link : Link A) (obj : A) (context : bag)
    (h : heap) : result (string * heap) :=
  let (vars, h0) := fresh_copy context h in
  r <~ match link_vars link with
       | Some f => f obj vars h0
       | None => ok (vars, h0)
       end ;;
  ok (expand_uri (link_uritemplate link) r.1 r.2, r.2).

Definition links_context (context : bag) : bag :=
  ("api", VStr SITE_API_URL) :: context.

Fixpoint links_expand {A : Type} (links : odict string (Link A))
    (context : bag) (obj : A) (acc : odict string string) (h : heap)
    : result (odict string string * heap) :=
  match links with
  | [] => ok (acc, h)
  | (key, link) :: links' =>
      if should_render link obj context then
        r <~ link_expand link obj context h ;;
        links_expand links' context obj (od_set key r.1 acc) r.2
      else links_expand links' context obj acc h
  end.

(** [LinksTemplate(links, context=context).expand(obj)] *)
Definition LinksTemplate_expand {A : Type} (links : odict string (Link A))
    (context : bag) (obj : A) (h : heap)
    : result (odict string string * heap) :=
  links_expand links (links_context context) obj [] h.

Definition json_of_links (links : odict string string) : json :=
  JDict (map (fun kv => (kv.1, JStr kv.2)) links).

(** ** Service results *)

Module TodoItemResult.
Record t : Type := mk {
  _item : TodoItem;
  _identity : Identity;
  _links_tpl : odict string (Link TodoItem)
}.

Definition to_dict (self : t) (h : heap) : result (json * heap) :=
  r <~ LinksTemplate_expand (_links_tpl self) [] (_item self) h ;;
  ok (JDict [ ("id", JInt (item_id (_item self)));
              ("title", JStr (title (_item self)));
              ("priority", JInt (priority (_item self)));
              ("is_owner",
               JBool (bool_decide
                        (identity_id (_identity self) = user_id (_item self))));
              ("links", json_of_links r.1) ],
      r.2).
End TodoItemResult.

(** A result class for items, as [TodoListResult] uses it: it is applied to
    an item, an identity and the item links, and the object it returns is
    asked for [to_dict()]. *)
Definition item_result_cls : Type :=
  TodoItem -> Identity -> odict string (Link TodoItem) ->
  heap -> result (json * heap).

Definition TodoItemResult_cls : item_result_cls :=
  fun item identity links_tpl =>
    TodoItemResult.to_dict (TodoItemResult.mk item identity links_tpl).

Module TodoListResult.
Record t : Type := mk {
  _item_list : list TodoItem;
  _identity : Identity;
  _params : loc;
  _links_tpl : odict string (Link Pagination);
  _item_result_cls : item_result_cls;
  _links_item_tpl : odict string (Link TodoItem)
}.

(** [self._params[key]] *)
Definition param (self : t) (key : string) (h : heap) : result Z :=
  match h !! _params self with
  | None => raise (AttributeError "_params")
  | Some d =>
      match od_get key d with
      | None => raise (KeyError key)
      | Some v => ok v
      end
  end.

(** The loop that dumps the items of the window. *)
Fixpoint dump (self : t) (window : list TodoItem) (hits : list json)
    (h : heap) : result (list json * heap) :=
  match window with
  | [] => ok (hits, h)
  | item :: window' =>
      r <~ _item_result_cls self item (_identity self)
             (_links_item_tpl self) h ;;
      dump self window' (hits ++ [r.1])%list r.2
  end.

Definition to_dict (self : t) (h : heap) : result (json * heap) :=
  let total_ := Z.of_nat (List.length (_item_list self)) in
  size_ <~ param self "size" h ;;
  page_ <~ param self "page" h ;;
  pagination <~ compute size_ page_ total_ ;;
  r <~ dump self
         (py_slice (_item_list self) (from_idx pagination) (to_idx pagination))
         [] h ;;
  l <~ LinksTemplate_expand (_links_tpl self)
         [("args", VRef (_params self))] pagination r.2 ;;
  ok (JDict [ ("hits", JDict [ ("hits", JList r.1);
                               ("total", JInt total_) ]);
              ("links", json_of_links l.1) ],
      l.2).
End TodoListResult.

(** ** Injected configuration *)

Module TodoServiceConfig.
Definition links_item : odict string (Link TodoItem) :=
  [ ("self",
     mkLink [Reserved "api"; Lit "/todos/"; Simple "id"]
       None
       (Some (fun item vars h =>
                ok (od_set "id" (VInt (item_id item)) vars, h)))) ].

(** [vars["args"].update({"page": p.page})], where [p] is the previous or
    the next page of the pagination. *)
Definition update_page (neighbour : Pagination -> option Pagination)
    (pagination : Pagination) (vars : bag) (h : heap)
    : result (bag * heap) :=
  match od_get "args" vars with
  | None => raise (KeyError "args")
  | Some (VRef l) =>
      match neighbour pagination with
      | None => raise (AttributeError "page")
      | Some p =>
          match h !! l with
          | None => raise (AttributeError "update")
          | Some d => ok (vars, <[l := od_set "page" (page p) d]> h)
          end
      end
  | Some _ => raise (AttributeError "update")
  end.

Definition links_search : odict string (Link Pagination) :=
  [ ("prev",
     mkLink [Reserved "api"; Lit "/todos"; QueryExplode "args"]
       (Some (fun pagination ctx => has_prev pagination))
       (Some (update_page prev_page)));
    ("self",
     mkLink [Reserved "api"; Lit "/todos"; QueryExplode "args"]
       None None);
    ("next",
     mkLink [Reserved "api"; Lit "/todos"; QueryExplode "args"]
       (Some (fun pagination ctx => has_next pagination))
       (Some (update_page next_page))) ].
End TodoServiceConfig.

(** ** Service *)

Module TodoService.
Import TodoServiceConfig.

Definition create (identity : Identity) (data : gmap string json)
    (d : TodoDatabase.db) : result TodoItemResult.t * TodoDatabase.db :=
  match require_permission identity "create" None with
  | inl e => (inl e, d)
  | inr _ =>
      match load data with
      | inl e => (inl e, d)
      | inr obj =>
          let item :=
            mkTodoItem (TodoSchema.obj_id obj) (TodoSchema.obj_title obj)
              (TodoSchema.obj_priority obj) (identity_id identity) in
          (ok (TodoItemResult.mk item identity links_item),
           TodoDatabase.add item d)
      end
  end.

Definition read (identity : Identity) (id_ : Z) (d : TodoDatabase.db)
    : result TodoItemResult.t :=
  item <~ TodoDatabase.get id_ d ;;
  _ <~ require_permission identity "read" (Some item) ;;
  ok (TodoItemResult.mk item identity links_item).

Definition search (identity : Identity) (page_ size_ : Z)
    (d : TodoDatabase.db) (h : heap) : result TodoListResult.t * heap :=
  match require_permission identity "search" None with
  | inl e => (inl e, h)
  | inr _ =>
      let item_list := TodoDatabase.get_all (identity_id identity) d in
      let (params, h') := alloc [("page", page_); ("size", size_)] h in
      (ok (TodoListResult.mk item_list identity params links_search
             TodoItemResult_cls links_item),
       h')
  end.
End TodoService.

(** [TodoResource._make_identity] *)
Definition _make_identity (user : option Z) : Identity :=
  match user with
  | Some u =>
      {| identity_id := Some u;
         provides := [UserNeed (Some u); RoleNeed "authenticated_user"] |}
  | None => AnonymousIdentity
  end.

(** ** Stores the service can reach *)

(** The store holds at most one item per id, and every item is stored under
    its own id. *)
Definition db_wf (d : TodoDatabase.db) : Prop :=
  NoDup (od_keys d) /\ forall k item, (k, item) ∈ d -> item_id item = k.

(** The stores that calls of [TodoService.create] produce from the empty
    one. *)
Inductive reachable : TodoDatabase.db -> Prop :=
| reachable_empty : reachable TodoDatabase.empty
| reachable_create identity data d :
    reachable d -> reachable (TodoService.create identity data d).2.

(** ** What the configured links expand to *)

Definition item_links (item : TodoItem) : odict string string :=
  [("self",
    String.append SITE_API_URL
      (String.append "/todos/" (string_of_Z (item_id item))))].

(** The representation of an item for an identity. *)
Definition item_repr (identity : Identity) (item : TodoItem) : json :=
  JDict [ ("id", JInt (item_id item));
          ("title", JStr (title item));
          ("priority", JInt (priority item));
          ("is_owner", JBool (bool_decide (identity_id identity = user_id item)));
          ("links", json_of_links (item_links item)) ].

Definition search_uri (args : odict string Z) : string :=
  String.append SITE_API_URL (String.append "/todos" (query_string args)).

Definition search_links (p : Pagination) (args : odict string Z)
    : odict string string :=
  ((if has_prev p
    then [("prev", search_uri (od_set "page" (page p - 1) args))] else [])
   ++ [("self", search_uri args)]
   ++ (if has_next p
       then [("next", search_uri (od_set "page" (page p + 1) args))] else []))%list.

(** The cells that expanding the search links allocates: one copy of the
    parameters per link rendered. *)
Definition search_cells (p : Pagination) (args : odict string Z) : heap :=
  ((if has_prev p then [od_set "page" (page p - 1) args] else [])
   ++ [args]
   ++ (if has_next p then [od_set "page" (page p + 1) args] else []))%list.

(** The representation of a list of items for an identity, a window and
    the pagination parameters. *)
Definition list_repr (identity : Identity) (items : list TodoItem)
    (p : Pagination) (args : odict string Z) : json :=
  JDict [ ("hits",
           JDict [ ("hits",
                    JList (map (item_repr identity)
                             (py_slice items (from_idx p) (to_idx p))));
                   ("total", JInt (Z.of_nat (List.length items))) ]);
          ("links", json_of_links (search_links p args)) ].

(** What [TodoListResult.to_dict] comes to for given parameters: the
    representation and the cells it allocates, or the exception. *)
Definition list_outcome (identity : Identity) (items : list TodoItem)
    (args : odict string Z) : result (json * list (odict string Z)) :=
  match od_get "size" args with
  | None => raise (KeyError "size")
  | Some size_ =>
      match od_get "page" args with
      | None => raise (KeyError "page")
      | Some page_ =>
          p <~ compute size_ page_ (Z.of_nat (List.length items)) ;;
          ok (list_repr identity items p args, search_cells p args)
      end
  end.

(** ** Presentation layer *)

Module TodoResource.
(** [error_handlers]: the exceptions the resource turns into a JSON error
    response, with the HTTP status code and the description.  An exception of
    another kind has no handler here. *)
Definition error_handlers (e : error) : option (Z * string) :=
  match e with
  | NoResultError _ => Some (404, "Not found")
  | ValidationError _ => Some (400, "Bad request")
  | PermissionDenied _ => Some (403, "Forbidden")
  | _ => None
  end.

(** The view methods, given what the request parsers have put into the
    request context: the [user] argument ([None] when the query string has
    none), the parsed body, the item id of the URL, the page and the size.
    Each returns the dict and the status code, and the store and the heap as
    the call leaves them. *)
Definition create (user : option Z) (data : gmap string json)
    (d : TodoDatabase.db) (h : heap)
    : result (json * Z) * TodoDatabase.db * heap :=
  let identity := _make_identity user in
  match TodoService.create identity data d with
  | (inl e, d') => (inl e, d', h)
  | (inr item, d') =>
      match TodoItemResult.to_dict item h with
      | inl e => (inl e, d', h)
      | inr (repr, h') => (inr (repr, 201), d', h')
      end
  end.

Definition read (user : option Z) (item_id_ : Z)
    (d : TodoDatabase.db) (h : heap) : result (json * Z) * heap :=
  let identity := _make_identity user in
  match TodoService.read identity item_id_ d with
  | inl e => (inl e, h)
  | inr item =>
      match TodoItemResult.to_dict item h with
      | inl e => (inl e, h)
      | inr (repr, h') => (inr (repr, 200), h')
      end
  end.

Definition search (user : option Z) (page_ size_ : Z)
    (d : TodoDatabase.db) (h : heap) : result (json * Z) * heap :=
  let identity := _make_identity user in
  match TodoService.search identity page_ size_ d h with
  | (inl e, h') => (inl e, h')
  | (inr item_list, h') =>
      match TodoListResult.to_dict item_list h' with
      | inl e => (inl e, h')
      | inr (repr, h'') => (inr (repr, 200), h'')
      end
  end.
End TodoResource.

(** The stores that [create] requests to the resource produce from the empty
    one. *)
Inductive resource_reachable : TodoDatabase.db -> Prop :=
| resource_reachable_empty : resource_reachable TodoDatabase.empty
| resource_reachable_create user data d h :
    resource_reachable d ->
    resource_reachable (TodoResource.create user data d h).1.2.

(** Reading a representation: the value under a key of a mapping, and the
    hits of a list representation. *)
Definition json_get (key : string) (j : json) : option json :=
  match j with
  | JDict d => od_get key d
  | _ => None
  end.

Definition json_hits (j : json) : option (list json) :=
  match json_get "hits" j with
  | Some hits =>
      match json_get "hits" hits with
      | Some (JList l) => Some l
      | _ => None
      end
  | None => None
  end.

(** The link of a given relation in a representation. *)
Definition json_link (rel : string) (j : json) : option json :=
  match json_get "links" j with
  | Some links => json_get rel links
  | None => None
  end.

(** * Properties *)

(** ** Results *)

Lemma rbind_inr {A B : Type} (m : result A) (k : A -> result B) (b : B) :
  rbind m k = inr b -> exists a, m = inr a /\ k a = inr b.
Proof. destruct m as [e|a]; simpl; [discriminate | eauto]. Qed.

(** ** Insertion-ordered dictionaries *)

Section odict_facts.
Context {K V : Type} `{EqDecision K}.
Implicit Types (k : K) (v : V) (d : odict K V).

Lemma od_get_set_eq k v d : od_get k (od_set k v d) = Some v.
Proof.
  induction d as [|[k' v'] d IH]; simpl.
  - by rewrite decide_True.
  - destruct (decide (k = k')) as [->|Hne]; simpl.
    + by rewrite decide_True.
    + by rewrite decide_False.
Qed.

Lemma od_get_set_ne k k' v d :
  k <> k' -> od_get k' (od_set k v d) = od_get k' d.
Proof.
  intros Hne. induction d as [|[k0 v0] d IH]; simpl.
  - rewrite decide_False; [done | congruence].
  - destruct (decide (k = k0)) as [->|Hne0]; simpl.
    + rewrite !decide_False; [done | congruence | congruence].
    + by rewrite IH.
Qed.

Lemma od_get_None k d : od_get k d = None <-> k ∉ od_keys d.
Proof.
  induction d as [|[k' v'] d IH]; simpl.
  - split; [intros _; apply not_elem_of_nil | done].
  - rewrite not_elem_of_cons. destruct (decide (k = k')) as [->|Hne].
    + split; [discriminate | intros [? _]; done].
    + rewrite IH. tauto.
Qed.

Lemma od_get_Some_elem k v d : od_get k d = Some v -> (k, v) ∈ d.
Proof.
  induction d as [|[k' v'] d IH]; simpl; [discriminate |].
  destruct (decide (k = k')) as [->|Hne].
  - intros [= ->]. apply list_elem_of_here.
  - intros Hget. apply list_elem_of_further, IH, Hget.
Qed.

Lemma od_keys_set_present k v d :
  k ∈ od_keys d -> od_keys (od_set k v d) = od_keys d.
Proof.
  induction d as [|[k' v'] d IH]; simpl.
  - intros Hin. by apply elem_of_nil in Hin.
  - intros Hin. destruct (decide (k = k')) as [->|Hne]; simpl; [done |].
    apply elem_of_cons in Hin as [?|Hin]; [done |]. by rewrite IH.
Qed.

Lemma od_keys_set_absent k v d :
  k ∉ od_keys d -> od_keys (od_set k v d) = (od_keys d ++ [k])%list.
Proof.
  induction d as [|[k' v'] d IH]; simpl; [done |].
  rewrite not_elem_of_cons. intros [Hne Hnin].
  rewrite decide_False; [|done]. simpl. by rewrite IH.
Qed.

Lemma od_set_elem k v k' v' d :
  (k', v') ∈ od_set k v d -> (k', v') = (k, v) \/ (k', v') ∈ d.
Proof.
  induction d as [|[k0 v0] d IH]; simpl.
  - intros Hin. apply list_elem_of_singleton in Hin. by left.
  - destruct (decide (k = k0)) as [->|Hne]; intros Hin;
      apply elem_of_cons in Hin as [Heq|Hin].
    + by left.
    + right. by apply list_elem_of_further.
    + right. rewrite Heq. apply list_elem_of_here.
    + destruct (IH Hin) as [?|?]; [by left |].
      right. by apply list_elem_of_further.
Qed.

Lemma od_keys_set_NoDup k v d :
  NoDup (od_keys d) -> NoDup (od_keys (od_set k v d)).
Proof.
  intros Hnd. destruct (decide (k ∈ od_keys d)) as [Hin|Hnin].
  - by rewrite od_keys_set_present.
  - rewrite od_keys_set_absent; [|done].
    apply NoDup_app. split; [done |]. split.
    + intros x Hx Hk. apply list_elem_of_singleton in Hk. by subst.
    + apply NoDup_singleton.
Qed.
End odict_facts.

(** ** Permission policy *)

Lemma allows_spec (required : list Need) (identity : Identity) :
  allows required identity = true <->
  required = [] \/ exists n, n ∈ provides identity /\ n ∈ required.
Proof.
  destruct required as [|n0 required]; simpl.
  - split; [by left | done].
  - rewrite orb_true_iff, existsb_exists, bool_decide_eq_true. split.
    + intros [Hn|(n & Hin & Hn)]; right.
      { exists n0. split; [done | apply list_elem_of_here]. }
      exists n. apply bool_decide_eq_true in Hn.
      split; [done |]. apply list_elem_of_further. by rewrite list_elem_of_In.
    + intros [?|(n & Hn & Hin)]; [done |].
      apply elem_of_cons in Hin as [->|Hin]; [by left |].
      right. exists n. rewrite <- list_elem_of_In.
      by rewrite bool_decide_eq_true.
Qed.

Lemma needs_length (g : Generator) (item : option TodoItem) (ns : list Need) :
  needs g item = inr ns -> List.length ns = 1%nat.
Proof. destruct g, item; simpl; intros [= <-] || discriminate; done. Qed.

Lemma collect_length gens item acc required :
  TodoPermissionPolicy.collect gens item acc = inr required ->
  List.length required = (List.length acc + List.length gens)%nat.
Proof.
  revert acc. induction gens as [|g gens IH]; intros acc; simpl.
  - intros [= <-]. lia.
  - intros Hc. apply rbind_inr in Hc as (ns & Hns & Hc).
    apply IH in Hc. apply needs_length in Hns.
    rewrite length_app in Hc. lia.
Qed.

(** The needs collected are those accumulated so far together with every
    need some generator of the list yields. *)
Lemma collect_union gens item acc required :
  TodoPermissionPolicy.collect gens item acc = inr required ->
  forall n, n ∈ required <->
    n ∈ acc \/ exists g ns, g ∈ gens /\ needs g item = inr ns /\ n ∈ ns.
Proof.
  revert acc. induction gens as [|g gens IH]; intros acc; simpl.
  - intros [= <-] n. split; [by left |].
    intros [?|(g & ns & Hg & _)]; [done |]. by apply elem_of_nil in Hg.
  - intros Hc n. apply rbind_inr in Hc as (ns & Hns & Hc).
    rewrite (IH _ Hc n), elem_of_app. split.
    + intros [[?|Hn]|(g' & ns' & Hg' & Hns' & Hn)].
      * by left.
      * right. exists g, ns. split; [apply list_elem_of_here | done].
      * right. exists g', ns'. split; [by apply list_elem_of_further | done].
    + intros [?|(g' & ns' & Hg' & Hns' & Hn)]; [by left; left |].
      apply elem_of_cons in Hg' as [->|Hg'].
      * left; right. congruence.
      * right. by exists g', ns'.
Qed.

Lemma require_permission_create (identity : Identity) :
  require_permission identity "create" None =
    if bool_decide (RoleNeed "authenticated_user" ∈ provides identity)
    then inr tt else inl (PermissionDenied "create").
Proof.
  unfold require_permission, check_permission. simpl.
  by rewrite orb_false_r.
Qed.

Lemma require_permission_read (identity : Identity) (item : TodoItem) :
  require_permission identity "read" (Some item) =
    if bool_decide (UserNeed (user_id item) ∈ provides identity)
    then inr tt else inl (PermissionDenied "read").
Proof.
  unfold require_permission, check_permission. simpl.
  by rewrite orb_false_r.
Qed.

Lemma require_permission_search (identity : Identity) (item : option TodoItem) :
  require_permission identity "search" item = inr tt.
Proof. reflexivity. Qed.

(** C1: for every list of generators, the needs the policy requires are the
    union of the needs of all the generators of the list, and the policy
    grants iff the list is empty or the identity holds at least one need that
    at least one generator yields: one need of one generator is enough, the
    identity does not have to meet every generator.  This is what the
    permission check of an action does with the generators registered for
    it.  An action without generators, as "search" is, has no required needs
    and is granted to every identity, the anonymous one included. *)
Theorem permission_or_semantics
    (identity : Identity) (item : option TodoItem)
    (gens : list Generator) (required : list Need) :
  TodoPermissionPolicy.collect gens item [] = inr required ->
  (forall n, n ∈ required <->
     exists g ns, g ∈ gens /\ needs g item = inr ns /\ n ∈ ns) /\
  (allows required identity = true <->
     gens = [] \/
     exists g ns n,
       g ∈ gens /\ needs g item = inr ns /\ n ∈ ns /\ n ∈ provides identity) /\
  (allows required identity = false <->
     gens <> [] /\ forall n, n ∈ required -> n ∉ provides identity) /\
  (forall action,
     TodoPermissionPolicy.generators action = inr gens ->
     check_permission identity action item = inr (allows required identity) /\
     require_permission identity action item =
       if allows required identity then inr tt
       else inl (PermissionDenied action)) /\
  TodoPermissionPolicy.generators "search" = inr [] /\
  (forall who it, check_permission who "search" it = inr true) /\
  check_permission AnonymousIdentity "search" None = inr true.
Proof.
  intros Hcollect.
  assert (Hunion : forall n, n ∈ required <->
            exists g ns, g ∈ gens /\ needs g item = inr ns /\ n ∈ ns).
  { intros n. rewrite (collect_union _ _ _ _ Hcollect n). split.
    - intros [Hn|?]; [by apply elem_of_nil in Hn | done].
    - intros ?. by right. }
  assert (Hempty : required = [] <-> gens = []).
  { pose proof (collect_length _ _ _ _ Hcollect) as Hlen. simpl in Hlen.
    split; intros ->; [by destruct gens | by destruct required]. }
  assert (Hgrant : allows required identity = true <->
            gens = [] \/
            exists g ns n,
              g ∈ gens /\ needs g item = inr ns /\ n ∈ ns /\
              n ∈ provides identity).
  { rewrite allows_spec, Hempty. split; (intros [?|Hex]; [by left | right]).
    - destruct Hex as (n & Hheld & Hreq).
      apply Hunion in Hreq as (g & ns & Hg & Hns & Hn). by exists g, ns, n.
    - destruct Hex as (g & ns & n & Hg & Hns & Hn & Hheld).
      exists n. split; [done |]. apply Hunion. by exists g, ns. }
  split; [done |]. split; [done |]. split; [|split; [|done]].
  - rewrite <- not_true_iff_false, allows_spec, Hempty. split.
    + intros Hno. split; [by intros ?; apply Hno; left |].
      intros n Hreq Hheld. apply Hno. right. by exists n.
    + intros [Hne Hnone] [?|(n & Hheld & Hreq)]; [done |].
      by apply (Hnone n).
  - intros action Hgens.
    unfold require_permission, check_permission, TodoPermissionPolicy.init.
    rewrite Hgens. simpl. by rewrite Hcollect.
Qed.

(** Two generators, [Owner] for an item of user 5 and [AuthenticatedUser]:
    the required needs are both of theirs; user 6, who holds only the role,
    is granted, an identity that holds only [UserNeed 5] is granted, and the
    anonymous identity, which holds neither, is not. *)
Lemma permission_or_semantics_witness :
  let item := Some (mkTodoItem 1 "Test" 1 (Some 5)) in
  let required := [UserNeed (Some 5); RoleNeed "authenticated_user"] in
  TodoPermissionPolicy.collect [Owner; AuthenticatedUser] item [] =
    inr required /\
  allows required (_make_identity (Some 6)) = true /\
  allows required (mkIdentity (Some 5) [UserNeed (Some 5)]) = true /\
  allows required AnonymousIdentity = false.
Proof.
  intros item required.
  destruct (permission_or_semantics (_make_identity (Some 6)) item
              [Owner; AuthenticatedUser] required eq_refl)
    as (_ & Hrole & _).
  destruct (permission_or_semantics (mkIdentity (Some 5) [UserNeed (Some 5)])
              item [Owner; AuthenticatedUser] required eq_refl)
    as (_ & Howner & _).
  destruct (permission_or_semantics AnonymousIdentity item
              [Owner; AuthenticatedUser] required eq_refl)
    as (_ & _ & Hnone & _).
  split; [reflexivity |]. split; [|split].
  - apply Hrole. right.
    exists AuthenticatedUser, [RoleNeed "authenticated_user"],
      (RoleNeed "authenticated_user").
    split; [apply list_elem_of_further, list_elem_of_here |].
    split; [reflexivity |]. split; [apply list_elem_of_here |].
    apply list_elem_of_further, list_elem_of_here.
  - apply Howner. right.
    exists Owner, [UserNeed (Some 5)], (UserNeed (Some 5)).
    split; [apply list_elem_of_here |].
    split; [reflexivity |]. split; apply list_elem_of_here.
  - apply Hnone. split; [discriminate |].
    intros n _. apply not_elem_of_nil.
Defined.

(** ** Reading an item *)

(** C2: [read] fetches first and raises [NoResultError] for an id that is not
    stored, whoever asks.  For a stored item the permission is then checked
    against that item: the call succeeds iff the identity holds the
    [UserNeed] of the item's owner, and is refused with [PermissionDenied]
    otherwise.  For an identity whose only user need is [UserNeed u] this
    means: it succeeds exactly when the owner is [u]. *)
Theorem read_fetch_then_authorize
    (identity : Identity) (id_ : Z) (d : TodoDatabase.db) :
  (od_get id_ d = None ->
     TodoService.read identity id_ d = inl (NoResultError id_)) /\
  (forall item, od_get id_ d = Some item ->
     (UserNeed (user_id item) ∈ provides identity ->
        TodoService.read identity id_ d =
          inr (TodoItemResult.mk item identity TodoServiceConfig.links_item)) /\
     (UserNeed (user_id item) ∉ provides identity ->
        TodoService.read identity id_ d = inl (PermissionDenied "read")) /\
     (forall u,
        UserNeed (Some u) ∈ provides identity ->
        (forall v, UserNeed v ∈ provides identity -> v = Some u) ->
        ((exists r, TodoService.read identity id_ d = inr r) <->
           user_id item = Some u))).
Proof.
  unfold TodoService.read, TodoDatabase.get. split.
  - by intros ->.
  - intros item ->. simpl. rewrite require_permission_read.
    split; [|split].
    + intros Hin. by rewrite bool_decide_eq_true_2.
    + intros Hnin. by rewrite bool_decide_eq_false_2.
    + intros u Hu Honly. case_bool_decide as Hin; simpl.
      * split; [intros _; by apply Honly | eauto].
      * split; [intros [r Hr]; discriminate |].
        intros Hown. rewrite Hown in Hin. done.
Qed.

(** An item of user 5: user 5 reads it, user 6 is refused, and id 999 is not
    found. *)
Lemma read_fetch_then_authorize_witness :
  let d := TodoDatabase.add (mkTodoItem 1 "Test" 1 (Some 5)) TodoDatabase.empty in
  (exists r, TodoService.read (_make_identity (Some 5)) 1 d = inr r) /\
  TodoService.read (_make_identity (Some 6)) 1 d = inl (PermissionDenied "read") /\
  TodoService.read (_make_identity (Some 6)) 999 d = inl (NoResultError 999).
Proof.
  intros d.
  pose (item := mkTodoItem 1 "Test" 1 (Some 5)).
  destruct (read_fetch_then_authorize (_make_identity (Some 5)) 1 d)
    as [_ Hfound].
  destruct (Hfound item eq_refl) as (Hgrant & _ & _).
  destruct (read_fetch_then_authorize (_make_identity (Some 6)) 1 d)
    as [_ Hfound'].
  destruct (Hfound' item eq_refl) as (_ & Hdeny & _).
  destruct (read_fetch_then_authorize (_make_identity (Some 6)) 999 d)
    as [Hmissing _].
  split; [|split].
  - eexists. apply Hgrant. apply list_elem_of_here.
  - apply Hdeny. intros Hv.
    apply elem_of_cons in Hv as [?|Hv]; [done |].
    apply elem_of_cons in Hv as [?|Hv]; [done | by apply elem_of_nil in Hv].
  - apply Hmissing. reflexivity.
Defined.

(** ** Creating an item *)

Lemma create_unfold (identity : Identity) (data : gmap string json)
    (d : TodoDatabase.db) :
  TodoService.create identity data d =
    if bool_decide (RoleNeed "authenticated_user" ∈ provides identity) then
      match load data with
      | inl e => (inl e, d)
      | inr obj =>
          let item :=
            mkTodoItem (TodoSchema.obj_id obj) (TodoSchema.obj_title obj)
              (TodoSchema.obj_priority obj) (identity_id identity) in
          (inr (TodoItemResult.mk item identity TodoServiceConfig.links_item),
           TodoDatabase.add item d)
      end
    else (inl (PermissionDenied "create"), d).
Proof.
  unfold TodoService.create. rewrite require_permission_create.
  by case_bool_decide.
Qed.

(** C3, as the code has it: [create] asks for the permission first, so an
    identity that may not create is refused with [PermissionDenied] whatever
    the input is; the input is validated only then, and a validation failure
    surfaces as it is; only then is the item built with the identity's id as
    owner, stored and wrapped.  A failed call leaves the store as it was. *)
Theorem create_authorizes_then_validates
    (identity : Identity) (data : gmap string json) (d : TodoDatabase.db) :
  (RoleNeed "authenticated_user" ∉ provides identity ->
     TodoService.create identity data d = (inl (PermissionDenied "create"), d)) /\
  (RoleNeed "authenticated_user" ∈ provides identity ->
     forall e, load data = inl e ->
     TodoService.create identity data d = (inl e, d)) /\
  (RoleNeed "authenticated_user" ∈ provides identity ->
     forall obj, load data = inr obj ->
     let item := mkTodoItem (TodoSchema.obj_id obj) (TodoSchema.obj_title obj)
                   (TodoSchema.obj_priority obj) (identity_id identity) in
     TodoService.create identity data d =
       (inr (TodoItemResult.mk item identity TodoServiceConfig.links_item),
        TodoDatabase.add item d)).
Proof.
  rewrite create_unfold. split; [|split].
  - intros Hnin. by rewrite bool_decide_eq_false_2.
  - intros Hin e He. by rewrite bool_decide_eq_true_2, He.
  - intros Hin obj Hobj. by rewrite bool_decide_eq_true_2, Hobj.
Qed.

Lemma create_authorizes_then_validates_witness :
  TodoService.create AnonymousIdentity ∅ TodoDatabase.empty =
    (inl (PermissionDenied "create"), TodoDatabase.empty) /\
  TodoService.create (_make_identity (Some 1)) ∅ TodoDatabase.empty =
    (inl (ValidationError ["id"; "title"]), TodoDatabase.empty).
Proof.
  destruct (create_authorizes_then_validates AnonymousIdentity ∅
              TodoDatabase.empty) as (Hdenied & _ & _).
  destruct (create_authorizes_then_validates (_make_identity (Some 1)) ∅
              TodoDatabase.empty) as (_ & Hinvalid & _).
  split.
  - apply Hdenied, not_elem_of_nil.
  - apply Hinvalid; [|reflexivity].
    apply list_elem_of_further, list_elem_of_here.
Defined.

(** C3, as the claim has it, fails: the empty input does not validate and the
    anonymous identity may not create, and the error raised is
    [PermissionDenied], not [ValidationError]. *)
Lemma create_validation_first_counterexample :
  (exists fields, load ∅ = inl (ValidationError fields)) /\
  require_permission AnonymousIdentity "create" None =
    inl (PermissionDenied "create") /\
  ~ (exists fields,
       (TodoService.create AnonymousIdentity ∅ TodoDatabase.empty).1 =
         inl (ValidationError fields)).
Proof.
  split; [by exists ["id"; "title"] |]. split; [reflexivity |].
  intros [fields Hf]. vm_compute in Hf. discriminate.
Qed.

(** ** The store *)

Lemma db_wf_empty : db_wf TodoDatabase.empty.
Proof.
  split; [apply NoDup_nil_2 |].
  intros k item Hin. by apply elem_of_nil in Hin.
Qed.

Lemma db_wf_add (item : TodoItem) (d : TodoDatabase.db) :
  db_wf d -> db_wf (TodoDatabase.add item d).
Proof.
  intros [Hnd Hkey]. split.
  - by apply od_keys_set_NoDup.
  - intros k it Hin. apply od_set_elem in Hin as [[= -> ->]|Hin]; [done |].
    by apply Hkey.
Qed.

Lemma create_db (identity : Identity) (data : gmap string json)
    (d : TodoDatabase.db) :
  (TodoService.create identity data d).2 = d \/
  exists item, (TodoService.create identity data d).2 = TodoDatabase.add item d.
Proof.
  unfold TodoService.create.
  destruct (require_permission identity "create" None); [by left |].
  destruct (load data); [by left | right; eauto].
Qed.

Lemma reachable_wf (d : TodoDatabase.db) : reachable d -> db_wf d.
Proof.
  induction 1 as [|identity data d _ IH]; [apply db_wf_empty |].
  destruct (create_db identity data d) as [->|[item ->]]; [done |].
  by apply db_wf_add.
Qed.

(** C9: when an identity that holds the authenticated-user role creates an
    item under an id that is already stored, the stored item is replaced: the
    store keeps the same ids, every other id keeps its item, the store still
    holds one item per id with every item under its own id, and the owner of
    the item now stored is the caller, whoever owned the item before. *)
Theorem create_replaces_existing
    (identity : Identity) (data : gmap string json) (d : TodoDatabase.db)
    (obj : TodoSchema.obj) (old : TodoItem) :
  reachable d ->
  RoleNeed "authenticated_user" ∈ provides identity ->
  load data = inr obj ->
  TodoDatabase.get (TodoSchema.obj_id obj) d = inr old ->
  let item := mkTodoItem (TodoSchema.obj_id obj) (TodoSchema.obj_title obj)
                (TodoSchema.obj_priority obj) (identity_id identity) in
  let d' := (TodoService.create identity data d).2 in
  (TodoService.create identity data d).1 =
    inr (TodoItemResult.mk item identity TodoServiceConfig.links_item) /\
  TodoDatabase.get (TodoSchema.obj_id obj) d' = inr item /\
  user_id item = identity_id identity /\
  od_keys d' = od_keys d /\
  (forall k, k <> TodoSchema.obj_id obj -> od_get k d' = od_get k d) /\
  db_wf d /\ db_wf d'.
Proof.
  intros Hreach Hauth Hload Hold item d'.
  assert (Hcreate : TodoService.create identity data d =
            (inr (TodoItemResult.mk item identity TodoServiceConfig.links_item),
             TodoDatabase.add item d)).
  { by rewrite create_unfold, bool_decide_eq_true_2, Hload. }
  assert (Hd' : d' = TodoDatabase.add item d) by (unfold d'; by rewrite Hcreate).
  rewrite Hcreate, Hd'. unfold TodoDatabase.add, TodoDatabase.get. simpl.
  split; [done |]. split; [by rewrite od_get_set_eq |]. split; [done |].
  split; [|split; [|split]].
  - apply od_keys_set_present. unfold TodoDatabase.get in Hold.
    destruct (od_get (TodoSchema.obj_id obj) d) eqn:Hget; [|discriminate].
    destruct (decide (TodoSchema.obj_id obj ∈ od_keys d)) as [?|Hnin]; [done |].
    apply od_get_None in Hnin. congruence.
  - intros k Hk. by apply od_get_set_ne.
  - by apply reachable_wf.
  - apply (db_wf_add item d), reachable_wf, Hreach.
Qed.

(** User 2 creates under id 1, which user 1 owns: the stored item now belongs
    to user 2. *)
Lemma create_replaces_existing_witness :
  let body : gmap string json :=
    <["id" := JInt 1]> (<["title" := JStr "Test"]> ∅) in
  let d := (TodoService.create (_make_identity (Some 1)) body
              TodoDatabase.empty).2 in
  let d' := (TodoService.create (_make_identity (Some 2)) body d).2 in
  TodoDatabase.get 1 d = inr (mkTodoItem 1 "Test" 3 (Some 1)) /\
  TodoDatabase.get 1 d' = inr (mkTodoItem 1 "Test" 3 (Some 2)) /\
  od_keys d' = od_keys d.
Proof.
  intros body d d'.
  assert (Hreach : reachable d) by apply reachable_create, reachable_empty.
  destruct (create_replaces_existing (_make_identity (Some 2)) body d
              (TodoSchema.mkObj 1 "Test" 3) (mkTodoItem 1 "Test" 3 (Some 1))
              Hreach)
    as (_ & Hget & _ & Hkeys & _).
  - apply list_elem_of_further, list_elem_of_here.
  - reflexivity.
  - reflexivity.
  - split; [reflexivity |]. split; [exact Hget | exact Hkeys].
Defined.

(** ** The schema *)

Lemma load_inr (data : gmap string json) (obj : TodoSchema.obj) :
  load data = inr obj ->
  data !! "id" = Some (JInt (TodoSchema.obj_id obj)) /\
  data !! "title" = Some (JStr (TodoSchema.obj_title obj)) /\
  (data !! "priority" = Some (JInt (TodoSchema.obj_priority obj)) \/
   data !! "priority" = None /\ TodoSchema.obj_priority obj = 3).
Proof.
  unfold load.
  destruct (data !! "id") as [[]|]; simpl; try discriminate.
  all: destruct (data !! "title") as [[]|]; simpl; try discriminate.
  all: destruct (data !! "priority") as [[]|]; simpl; try discriminate.
  all: intros [= <-]; simpl; auto.
Qed.

Lemma load_inl (data : gmap string json) (e : error) :
  load data = inl e -> exists fields, e = ValidationError fields.
Proof.
  unfold load. repeat case_match; intros [= <-]; eauto.
Qed.

(** C10: the schema asks for an integer [id] and a string [title]: when
    either is absent or of another type, loading fails with
    [ValidationError], and so does [create] for an identity that may create.
    When no [priority] is supplied, the item that [create] stores has
    priority 3. *)
Theorem schema_required_fields_and_default (data : gmap string json) :
  ((forall z, data !! "id" <> Some (JInt z)) \/
   (forall s, data !! "title" <> Some (JStr s)) ->
   exists fields,
     load data = inl (ValidationError fields) /\
     forall identity d,
       RoleNeed "authenticated_user" ∈ provides identity ->
       TodoService.create identity data d = (inl (ValidationError fields), d)) /\
  (data !! "priority" = None ->
   (forall identity d r d',
      TodoService.create identity data d = (inr r, d') ->
      priority (TodoItemResult._item r) = 3 /\
      TodoDatabase.get (item_id (TodoItemResult._item r)) d' =
        inr (TodoItemResult._item r)) /\
   (forall z s identity d,
      data !! "id" = Some (JInt z) -> data !! "title" = Some (JStr s) ->
      RoleNeed "authenticated_user" ∈ provides identity ->
      (TodoService.create identity data d).2 =
        TodoDatabase.add (mkTodoItem z s 3 (identity_id identity)) d)).
Proof.
  split.
  - intros Hbad. destruct (load data) as [e|obj] eqn:Hload.
    + destruct (load_inl _ _ Hload) as [fields ->]. exists fields.
      split; [done |]. intros identity d Hauth.
      by rewrite create_unfold, bool_decide_eq_true_2, Hload.
    + apply load_inr in Hload as (Hid & Htitle & _).
      destruct Hbad as [Hbad|Hbad]; [by destruct (Hbad _ Hid) |].
      by destruct (Hbad _ Htitle).
  - intros Hprio. split.
    + intros identity d r d'. rewrite create_unfold.
      case_bool_decide; [|discriminate].
      destruct (load data) as [e|obj] eqn:Hload; [discriminate |].
      intros [= <- <-]. simpl.
      apply load_inr in Hload as (_ & _ & [Hp|[_ Hp]]); [congruence |].
      split; [done |].
      unfold TodoDatabase.get, TodoDatabase.add. simpl.
      by rewrite od_get_set_eq.
    + intros z s identity d Hid Htitle Hauth.
      rewrite create_unfold, bool_decide_eq_true_2; [|done].
      unfold load. by rewrite Hid, Htitle, Hprio.
Qed.

Lemma schema_required_fields_and_default_witness :
  (exists fields,
     load (<["title" := JStr "Test"]> ∅) = inl (ValidationError fields)) /\
  (TodoService.create (_make_identity (Some 1))
     (<["id" := JInt 7]> (<["title" := JStr "Test"]> ∅))
     TodoDatabase.empty).2 = [(7, mkTodoItem 7 "Test" 3 (Some 1))].
Proof.
  destruct (schema_required_fields_and_default (<["title" := JStr "Test"]> ∅))
    as [Hrequired _].
  destruct (schema_required_fields_and_default
              (<["id" := JInt 7]> (<["title" := JStr "Test"]> ∅)))
    as [_ Hdefault].
  split.
  - destruct Hrequired as (fields & Hfields & _).
    + left. intros z. vm_compute. discriminate.
    + by exists fields.
  - destruct Hdefault as [_ Hstored]; [reflexivity |].
    apply (Hstored 7 "Test"); [reflexivity | reflexivity |].
    apply list_elem_of_further, list_elem_of_here.
Defined.

(** ** Pagination *)

(** C5: for a positive size, a page from 1 on and a non-negative total, the
    window starts at [(page-1)*size] and ends [size] further, both cut to
    [[0, total]]; there is a previous page iff [page > 1] and a next one iff
    the end lies before the total.  With size 10 and 25 results, page 1 is
    the window [[0,10)] with a next and no previous page, and page 3 is the
    window [[20,25)] without a next page. *)
Theorem pagination_window (size_ page_ total_ : Z) :
  0 < size_ -> 1 <= page_ -> 0 <= total_ ->
  (exists p,
     compute size_ page_ total_ = inr p /\
     from_idx p = Z.max 0 (Z.min ((page_ - 1) * size_) total_) /\
     to_idx p = Z.max 0 (Z.min ((page_ - 1) * size_ + size_) total_) /\
     to_idx p = Z.min (from_idx p + size_) total_ /\
     0 <= from_idx p <= to_idx p /\ to_idx p <= total_ /\
     has_prev p = bool_decide (page_ > 1) /\
     has_next p = bool_decide (to_idx p < total_)) /\
  (exists p1,
     compute 10 1 25 = inr p1 /\ from_idx p1 = 0 /\ to_idx p1 = 10 /\
     has_prev p1 = false /\ has_next p1 = true) /\
  (exists p3,
     compute 10 3 25 = inr p3 /\ from_idx p3 = 20 /\ to_idx p3 = 25 /\
     has_next p3 = false).
Proof.
  intros Hsize Hpage Htotal. split; [|split].
  - exists (mkPagination size_ page_ total_).
    assert (Hfrom : 0 <= (page_ - 1) * size_)
      by (apply Z.mul_nonneg_nonneg; lia).
    unfold compute, has_prev, has_next, from_idx, to_idx, clamp. simpl.
    set (x := (page_ - 1) * size_) in *.
    split.
    { destruct (size_ <? 1) eqn:Hs; [apply Z.ltb_lt in Hs; lia |].
      destruct (page_ <? 1) eqn:Hp; [apply Z.ltb_lt in Hp; lia | done]. }
    repeat split; try lia.
    + case_bool_decide; [apply Z.ltb_lt | apply Z.ltb_ge]; lia.
    + case_bool_decide; [apply Z.ltb_lt | apply Z.ltb_ge]; lia.
  - by exists (mkPagination 10 1 25).
  - by exists (mkPagination 10 3 25).
Qed.

Lemma pagination_window_witness :
  exists p,
    compute 10 2 25 = inr p /\ from_idx p = 10 /\ to_idx p = 20 /\
    has_prev p = true /\ has_next p = true.
Proof.
  destruct (pagination_window 10 2 25) as [(p & Hp & Hfrom & Hto & _) _];
    [lia | lia | lia |].
  exists p. injection Hp as <-. by vm_compute.
Defined.

(** ** Link templates *)

Lemma heap_lookup_alloc (h : heap) (d : odict string Z) :
  (h ++ [d])%list !! List.length h = Some d.
Proof. by apply list_lookup_middle. Qed.

Lemma heap_lookup_extend (h ext : heap) (l : loc) (d : odict string Z) :
  h !! l = Some d -> (h ++ ext)%list !! l = Some d.
Proof. apply lookup_app_l_Some. Qed.

Lemma heap_insert_alloc (h : heap) (d d' : odict string Z) :
  <[List.length h := d']> (h ++ [d])%list = (h ++ [d'])%list.
Proof.
  rewrite insert_app_r_alt by lia. by rewrite Nat.sub_diag.
Qed.

Lemma links_item_expand (item : TodoItem) (h : heap) :
  LinksTemplate_expand TodoServiceConfig.links_item [] item h =
    inr (item_links item, h).
Proof. reflexivity. Qed.

Lemma expand_uri_search (h : heap) (args : odict string Z) :
  expand_uri [Reserved "api"; Lit "/todos"; QueryExplode "args"]
    [("api", VStr SITE_API_URL); ("args", VRef (List.length h))]
    (h ++ [args])%list = search_uri args.
Proof.
  unfold expand_uri, search_uri. simpl map.
  change (od_get "args" _) with (Some (VRef (List.length h))).
  by rewrite heap_lookup_alloc.
Qed.

(** A link without a [vars] function renders the copy of the parameters. *)
Lemma link_expand_plain (when : option (Pagination -> bag -> bool))
    (p : Pagination) (l : loc) (h : heap) (args : odict string Z) :
  h !! l = Some args ->
  link_expand
    (mkLink [Reserved "api"; Lit "/todos"; QueryExplode "args"] when None)
    p (links_context [("args", VRef l)]) h =
  inr (search_uri args, (h ++ [args])%list).
Proof.
  intros Hl. unfold link_expand, links_context. simpl fresh_copy.
  rewrite Hl. simpl. by rewrite expand_uri_search.
Qed.

(** A link that binds the page of a neighbour writes it into the copy. *)
Lemma link_expand_update (when : option (Pagination -> bag -> bool))
    (neighbour : Pagination -> option Pagination)
    (p q : Pagination) (l : loc) (h : heap) (args : odict string Z) :
  h !! l = Some args ->
  neighbour p = Some q ->
  link_expand
    (mkLink [Reserved "api"; Lit "/todos"; QueryExplode "args"] when
       (Some (TodoServiceConfig.update_page neighbour)))
    p (links_context [("args", VRef l)]) h =
  inr (search_uri (od_set "page" (page q) args),
       (h ++ [od_set "page" (page q) args])%list).
Proof.
  intros Hl Hq. unfold link_expand, links_context. simpl fresh_copy.
  rewrite Hl. simpl default. cbv beta iota zeta. simpl link_vars.
  unfold TodoServiceConfig.update_page.
  change (od_get "args" (_ :: _)) with (Some (VRef (List.length h))).
  cbv beta iota. rewrite Hq, heap_lookup_alloc, heap_insert_alloc.
  simpl. by rewrite expand_uri_search.
Qed.

Lemma prev_page_Some (p : Pagination) :
  has_prev p = true ->
  prev_page p = Some (mkPagination (size p) (page p - 1) (total p)).
Proof. unfold prev_page. by intros ->. Qed.

Lemma next_page_Some (p : Pagination) :
  has_next p = true ->
  next_page p = Some (mkPagination (size p) (page p + 1) (total p)).
Proof. unfold next_page. by intros ->. Qed.

(** Expanding the search links reads the parameters, writes only to the
    copies it allocates, and renders [prev] and [next] only when the window
    has such a neighbour. *)
Lemma links_search_expand (p : Pagination) (l : loc) (h : heap)
    (args : odict string Z) :
  h !! l = Some args ->
  LinksTemplate_expand TodoServiceConfig.links_search [("args", VRef l)] p h =
    inr (search_links p args, (h ++ search_cells p args)%list).
Proof.
  intros Hl.
  unfold LinksTemplate_expand, TodoServiceConfig.links_search,
    search_links, search_cells.
  cbn [links_expand should_render link_when].
  destruct (has_prev p) eqn:Hprev; destruct (has_next p) eqn:Hnext.
  - rewrite (link_expand_update _ _ _ _ _ _ _ Hl (prev_page_Some p Hprev)).
    cbn [rbind fst snd page].
    rewrite (link_expand_plain _ _ _ _ _ (heap_lookup_extend _ _ _ _ Hl)).
    cbn [rbind fst snd].
    rewrite (link_expand_update _ _ _ _ _ _ _
               (heap_lookup_extend _ _ _ _ (heap_lookup_extend _ _ _ _ Hl))
               (next_page_Some p Hnext)).
    cbn [rbind fst snd page]. by rewrite <- !app_assoc.
  - rewrite (link_expand_update _ _ _ _ _ _ _ Hl (prev_page_Some p Hprev)).
    cbn [rbind fst snd page].
    rewrite (link_expand_plain _ _ _ _ _ (heap_lookup_extend _ _ _ _ Hl)).
    cbn [rbind fst snd]. by rewrite <- !app_assoc.
  - rewrite (link_expand_plain _ _ _ _ _ Hl).
    cbn [rbind fst snd].
    rewrite (link_expand_update _ _ _ _ _ _ _
               (heap_lookup_extend _ _ _ _ Hl) (next_page_Some p Hnext)).
    cbn [rbind fst snd page]. by rewrite <- !app_assoc.
  - by rewrite (link_expand_plain _ _ _ _ _ Hl).
Qed.

(** ** Result wrappers *)

Lemma item_to_dict (identity : Identity) (item : TodoItem) (h : heap) :
  TodoItemResult.to_dict
    (TodoItemResult.mk item identity TodoServiceConfig.links_item) h =
  inr (item_repr identity item, h).
Proof. reflexivity. Qed.

Lemma dump_items (self : TodoListResult.t) (window : list TodoItem)
    (hits : list json) (h : heap) :
  TodoListResult._item_result_cls self = TodoItemResult_cls ->
  TodoListResult._links_item_tpl self = TodoServiceConfig.links_item ->
  TodoListResult.dump self window hits h =
    inr ((hits ++ map (item_repr (TodoListResult._identity self)) window)%list, h).
Proof.
  intros Hcls Htpl. revert hits.
  induction window as [|item window IH]; intros hits; simpl.
  - by rewrite app_nil_r.
  - rewrite Hcls, Htpl. unfold TodoItemResult_cls. rewrite item_to_dict.
    simpl. rewrite IH. by rewrite <- app_assoc.
Qed.

(** [to_dict] of a list result built with the configured links and item
    result class: it reads the parameters, and what it allocates comes after
    the cells that were there. *)
Lemma list_to_dict (items : list TodoItem) (identity : Identity) (l : loc)
    (h : heap) (args : odict string Z) :
  h !! l = Some args ->
  TodoListResult.to_dict
    (TodoListResult.mk items identity l TodoServiceConfig.links_search
       TodoItemResult_cls TodoServiceConfig.links_item) h =
  (r <~ list_outcome identity items args ;; ok (r.1, (h ++ r.2)%list)).
Proof.
  intros Hl. unfold TodoListResult.to_dict, TodoListResult.param, list_outcome.
  cbn [TodoListResult._params TodoListResult._item_list
       TodoListResult._identity TodoListResult._links_tpl].
  rewrite Hl.
  destruct (od_get "size" args) as [size_|]; [|done].
  destruct (od_get "page" args) as [page_|]; [|done].
  cbn [rbind ok].
  destruct (compute size_ page_ (Z.of_nat (List.length items))) as [e|p];
    [reflexivity |].
  cbn [rbind ok].
  rewrite (dump_items
             (TodoListResult.mk items identity l TodoServiceConfig.links_search
                TodoItemResult_cls TodoServiceConfig.links_item)
             _ [] h eq_refl eq_refl).
  cbn [rbind fst snd TodoListResult._identity app].
  by rewrite (links_search_expand p l h args Hl).
Qed.

Lemma py_slice_window {A : Type} (l : list A) (a b : Z) :
  0 <= a <= b -> b <= Z.of_nat (List.length l) ->
  py_slice l a b = take (Z.to_nat (b - a)) (drop (Z.to_nat a) l).
Proof.
  intros Hab Hb. unfold py_slice, slice_index.
  destruct (Z.ltb_spec a 0); [lia |]. destruct (Z.ltb_spec b 0); [lia |].
  by rewrite !Z.min_l by lia.
Qed.

Lemma window_bounds (p : Pagination) :
  1 <= size p -> 1 <= page p -> 0 <= total p ->
  0 <= from_idx p <= to_idx p /\ to_idx p <= total p.
Proof.
  intros Hsize Hpage Htotal. unfold from_idx, to_idx, clamp.
  assert (0 <= (page p - 1) * size p) by (apply Z.mul_nonneg_nonneg; lia).
  lia.
Qed.

Lemma compute_inr (size_ page_ total_ : Z) :
  1 <= size_ -> 1 <= page_ ->
  compute size_ page_ total_ = inr (mkPagination size_ page_ total_).
Proof.
  intros Hsize Hpage. unfold compute.
  destruct (Z.ltb_spec size_ 1); [lia |]. by destruct (Z.ltb_spec page_ 1); [lia |].
Qed.

Lemma compute_inl (size_ page_ total_ : Z) :
  size_ < 1 \/ page_ < 1 -> compute size_ page_ total_ = inl InvalidArgument.
Proof.
  intros Hbad. unfold compute.
  destruct (Z.ltb_spec size_ 1); [done |]. by destruct (Z.ltb_spec page_ 1); [|lia].
Qed.

(** C7: the representation of an item result is a mapping with exactly the
    keys id, title, priority, is_owner and links, in this order; id, title
    and priority are the fields of the item, is_owner tells whether the id of
    the identity is the owner of the item, and links is the expansion of the
    item link templates with the item as context.  With the configured item
    links the expansion is the single [self] link of the item. *)
Theorem item_representation
    (item : TodoItem) (identity : Identity)
    (tpl : odict string (Link TodoItem)) (h : heap) :
  (forall links h',
     LinksTemplate_expand tpl [] item h = inr (links, h') ->
     exists d,
       TodoItemResult.to_dict (TodoItemResult.mk item identity tpl) h =
         inr (JDict d, h') /\
       od_keys d = ["id"; "title"; "priority"; "is_owner"; "links"] /\
       od_get "id" d = Some (JInt (item_id item)) /\
       od_get "title" d = Some (JStr (title item)) /\
       od_get "priority" d = Some (JInt (priority item)) /\
       od_get "is_owner" d =
         Some (JBool (bool_decide (identity_id identity = user_id item))) /\
       od_get "links" d = Some (json_of_links links)) /\
  LinksTemplate_expand TodoServiceConfig.links_item [] item h =
    inr (item_links item, h) /\
  TodoItemResult.to_dict
    (TodoItemResult.mk item identity TodoServiceConfig.links_item) h =
    inr (item_repr identity item, h).
Proof.
  split; [|by split].
  intros links h' Hexpand. unfold TodoItemResult.to_dict.
  cbn [TodoItemResult._links_tpl TodoItemResult._item TodoItemResult._identity].
  rewrite Hexpand. cbn [rbind ok fst snd].
  eexists. split; [reflexivity |]. by repeat split.
Qed.

Lemma item_representation_witness :
  exists d,
    TodoItemResult.to_dict
      (TodoItemResult.mk (mkTodoItem 1 "Test" 1 (Some 1))
         (_make_identity (Some 2)) TodoServiceConfig.links_item) [] =
      inr (JDict d, []) /\
    od_keys d = ["id"; "title"; "priority"; "is_owner"; "links"] /\
    od_get "is_owner" d = Some (JBool false) /\
    od_get "links" d =
      Some (JDict [("self", JStr "http://127.0.0.1:5000/todos/1")]).
Proof.
  destruct (item_representation (mkTodoItem 1 "Test" 1 (Some 1))
              (_make_identity (Some 2)) TodoServiceConfig.links_item [])
    as [Hgen _].
  destruct (Hgen [("self", "http://127.0.0.1:5000/todos/1")] [] eq_refl)
    as (d & Hd & Hkeys & _ & _ & _ & Howner & Hlinks).
  exists d. split; [exact Hd |]. split; [exact Hkeys |].
  split; [exact Howner | exact Hlinks].
Defined.

(** C8: the representation of a list result reports as total the length of
    the whole item list, holds as hits the item representations of the items
    at the positions from [from_idx] up to [to_idx], in that order, and its
    links are [prev], [self], [next], where [prev] is there iff the window
    has a previous page and [next] iff it has a next one. *)
Theorem list_representation
    (items : list TodoItem) (identity : Identity) (l : loc) (h : heap)
    (args : odict string Z) (size_ page_ : Z) :
  h !! l = Some args ->
  od_get "size" args = Some size_ ->
  od_get "page" args = Some page_ ->
  1 <= size_ -> 1 <= page_ ->
  let self :=
    TodoListResult.mk items identity l TodoServiceConfig.links_search
      TodoItemResult_cls TodoServiceConfig.links_item in
  let p := mkPagination size_ page_ (Z.of_nat (List.length items)) in
  exists hits links h',
    TodoListResult.to_dict self h =
      inr (JDict [ ("hits",
                    JDict [ ("hits", JList hits);
                            ("total", JInt (Z.of_nat (List.length items))) ]);
                   ("links", json_of_links links) ],
           h') /\
    hits = map (item_repr identity)
             (take (Z.to_nat (to_idx p - from_idx p))
                (drop (Z.to_nat (from_idx p)) items)) /\
    (forall item,
       TodoItemResult_cls item identity TodoServiceConfig.links_item h =
         inr (item_repr identity item, h)) /\
    od_keys links =
      ((if has_prev p then ["prev"] else []) ++ ["self"]
       ++ (if has_next p then ["next"] else []))%list /\
    (forall k, k ∈ od_keys links -> k ∈ ["prev"; "self"; "next"]) /\
    ("prev" ∈ od_keys links <-> has_prev p = true) /\
    ("next" ∈ od_keys links <-> has_next p = true).
Proof.
  intros Hl Hsize Hpage Hs Hp self p.
  exists (map (item_repr identity) (py_slice items (from_idx p) (to_idx p))),
    (search_links p args), (h ++ search_cells p args)%list.
  split.
  { unfold self. rewrite (list_to_dict items identity l h args Hl).
    unfold list_outcome. rewrite Hsize, Hpage, compute_inr by done.
    reflexivity. }
  split.
  { destruct (window_bounds p) as [Hft Ht]; [done | done | simpl; lia |].
    by rewrite py_slice_window. }
  split; [done |].
  assert (Hkeys : od_keys (search_links p args) =
            ((if has_prev p then ["prev"] else []) ++ ["self"]
             ++ (if has_next p then ["next"] else []))%list).
  { unfold search_links. by destruct (has_prev p), (has_next p). }
  rewrite Hkeys. split; [done |].
  destruct (has_prev p), (has_next p); simpl;
    repeat split; intros;
    repeat match goal with
      | H : _ ∈ _ :: _ |- _ => apply elem_of_cons in H as [?|H]
      | H : _ ∈ [] |- _ => by apply elem_of_nil in H
      end;
    subst; try done;
    repeat first [apply list_elem_of_here | apply list_elem_of_further].
Qed.

(** Three items, page 2 of size 1: the hit is the second item, and both
    neighbours are linked. *)
Lemma list_representation_witness :
  let items := [ mkTodoItem 1 "a" 1 (Some 1); mkTodoItem 2 "b" 2 (Some 1);
                 mkTodoItem 3 "c" 3 (Some 1) ] in
  let identity := _make_identity (Some 1) in
  exists links h',
    TodoListResult.to_dict
      (TodoListResult.mk items identity 0%nat TodoServiceConfig.links_search
         TodoItemResult_cls TodoServiceConfig.links_item)
      [[("page", 2); ("size", 1)]] =
      inr (JDict [ ("hits",
                    JDict [ ("hits",
                             JList [item_repr identity
                                      (mkTodoItem 2 "b" 2 (Some 1))]);
                            ("total", JInt 3) ]);
                   ("links", json_of_links links) ],
           h') /\
    od_keys links = ["prev"; "self"; "next"].
Proof.
  intros items identity.
  destruct (list_representation items identity 0%nat
              [[("page", 2); ("size", 1)]] [("page", 2); ("size", 1)] 1 2)
    as (hits & links & h' & Hdict & Hhits & _ & Hkeys & _);
    [reflexivity | reflexivity | reflexivity | lia | lia |].
  exists links, h'. split.
  - rewrite Hdict, Hhits. reflexivity.
  - exact Hkeys.
Defined.

(** C6: the pagination calculator raises [InvalidArgument] for a size or a
    page below 1.  Nothing in the service filters these: [search] called with
    such arguments returns a list result, and dumping that result raises
    [InvalidArgument]. *)
Theorem pagination_guard (size_ page_ total_ : Z) :
  size_ < 1 \/ page_ < 1 ->
  compute size_ page_ total_ = inl InvalidArgument /\
  forall identity d h,
    exists self h',
      TodoService.search identity page_ size_ d h = (inr self, h') /\
      TodoListResult.to_dict self h' = inl InvalidArgument.
Proof.
  intros Hbad. split; [by apply compute_inl |].
  intros identity d h. eexists _, _. split; [reflexivity |].
  rewrite (list_to_dict _ _ _ _ [("page", page_); ("size", size_)])
    by apply heap_lookup_alloc.
  unfold list_outcome.
  change (od_get "size" _) with (Some size_).
  change (od_get "page" _) with (Some page_).
  cbn iota. by rewrite compute_inl.
Qed.

Lemma pagination_guard_witness :
  compute 0 1 25 = inl InvalidArgument /\
  compute 10 0 25 = inl InvalidArgument.
Proof.
  split.
  - apply (pagination_guard 0 1 25). lia.
  - apply (pagination_guard 10 0 25). lia.
Defined.

(** C4: expanding the configured link templates is repeatable and leaves
    every dictionary that existed before as it was.  The item links allocate
    nothing.  The search links, whose [prev] and [next] templates write a page
    number into the [args] bag, write into copies only: the heap afterwards
    is the heap before with cells added, the parameters are unchanged, and a
    second expansion yields the same links.  The same holds for [to_dict] of
    a list result as a whole. *)
Theorem link_expansion_pure
    (p : Pagination) (l : loc) (h : heap) (args : odict string Z) :
  h !! l = Some args ->
  (forall item,
     LinksTemplate_expand TodoServiceConfig.links_item [] item h =
       inr (item_links item, h)) /\
  (exists links ext,
     LinksTemplate_expand TodoServiceConfig.links_search [("args", VRef l)] p h =
       inr (links, (h ++ ext)%list) /\
     (h ++ ext)%list !! l = Some args /\
     (forall i c, h !! i = Some c -> (h ++ ext)%list !! i = Some c) /\
     exists ext',
       LinksTemplate_expand TodoServiceConfig.links_search [("args", VRef l)] p
         (h ++ ext)%list = inr (links, ((h ++ ext) ++ ext')%list)) /\
  (forall items identity repr h',
     let self :=
       TodoListResult.mk items identity l TodoServiceConfig.links_search
         TodoItemResult_cls TodoServiceConfig.links_item in
     TodoListResult.to_dict self h = inr (repr, h') ->
     h' !! l = Some args /\
     exists h'', TodoListResult.to_dict self h' = inr (repr, h'')).
Proof.
  intros Hl. split; [done |]. split.
  - exists (search_links p args), (search_cells p args).
    split; [by apply links_search_expand |].
    split; [by apply heap_lookup_extend |].
    split; [intros i c; apply heap_lookup_extend |].
    exists (search_cells p args).
    by apply links_search_expand, heap_lookup_extend.
  - intros items identity repr h' self. unfold self.
    rewrite (list_to_dict items identity l h args Hl).
    destruct (list_outcome identity items args) as [e|[r cells]] eqn:Hout;
      [discriminate |].
    cbn [rbind ok fst snd]. intros [= <- <-].
    split; [by apply heap_lookup_extend |].
    exists ((h ++ cells) ++ cells)%list.
    rewrite (list_to_dict items identity l (h ++ cells)%list args)
      by by apply heap_lookup_extend.
    by rewrite Hout.
Qed.

(** Page 2 of size 1 over three results: both expansions give the same three
    links, and the parameters still say page 2. *)
Lemma link_expansion_pure_witness :
  let h := [[("page", 2); ("size", 1)]] in
  exists links ext,
    LinksTemplate_expand TodoServiceConfig.links_search [("args", VRef 0%nat)]
      (mkPagination 1 2 3) h = inr (links, (h ++ ext)%list) /\
    (h ++ ext)%list !! 0%nat = Some [("page", 2); ("size", 1)] /\
    exists ext',
      LinksTemplate_expand TodoServiceConfig.links_search
        [("args", VRef 0%nat)] (mkPagination 1 2 3) (h ++ ext)%list =
        inr (links, ((h ++ ext) ++ ext')%list).
Proof.
  intros h.
  destruct (link_expansion_pure (mkPagination 1 2 3) 0%nat h
              [("page", 2); ("size", 1)] eq_refl)
    as (_ & (links & ext & Hfirst & Hargs & _ & Hsecond) & _).
  exists links, ext. split; [exact Hfirst |]. split; [exact Hargs | exact Hsecond].
Defined.

(** * Further properties *)

(** ** The data layer *)

Section odict_more.
Context {K V : Type} `{EqDecision K}.
Implicit Types (k : K) (v : V) (d : odict K V).

Lemma od_set_absent k v d :
  od_get k d = None -> od_set k v d = (d ++ [(k, v)])%list.
Proof.
  induction d as [|[k' v'] d IH]; simpl; [done |].
  destruct (decide (k = k')); [discriminate |].
  intros Hget. by rewrite IH.
Qed.

Lemma od_set_set k v v' d : od_set k v' (od_set k v d) = od_set k v' d.
Proof.
  induction d as [|[k0 v0] d IH]; simpl.
  - by rewrite decide_True.
  - destruct (decide (k = k0)) as [->|Hne]; simpl.
    + by rewrite decide_True.
    + rewrite decide_False by done. by rewrite IH.
Qed.

Lemma od_elem_get k v d :
  NoDup (od_keys d) -> (k, v) ∈ d -> od_get k d = Some v.
Proof.
  induction d as [|[k' v'] d IH]; simpl.
  - intros _ Hin. by apply elem_of_nil in Hin.
  - intros Hnd Hin. apply NoDup_cons in Hnd as [Hnin Hnd].
    apply elem_of_cons in Hin as [[= -> ->]|Hin].
    + by rewrite decide_True.
    + destruct (decide (k = k')) as [->|Hne]; [|by apply IH].
      destruct Hnin. change (k' ∈ map fst d).
      apply list_elem_of_In, in_map_iff. exists (k', v).
      split; [done | by apply list_elem_of_In].
Qed.
End odict_more.

(** X1: an item that was added is what [get] returns for its id, and [get]
    for every other id is as before. *)
Theorem add_get (item : TodoItem) (d : TodoDatabase.db) :
  TodoDatabase.get (item_id item) (TodoDatabase.add item d) = inr item /\
  forall k, k <> item_id item ->
    TodoDatabase.get k (TodoDatabase.add item d) = TodoDatabase.get k d.
Proof.
  unfold TodoDatabase.get, TodoDatabase.add. split.
  - by rewrite od_get_set_eq.
  - intros k Hk. by rewrite od_get_set_ne.
Qed.

Lemma add_get_witness :
  TodoDatabase.get 1
    (TodoDatabase.add (mkTodoItem 2 "b" 3 (Some 1))
       [(1, mkTodoItem 1 "a" 3 (Some 1))]) =
  inr (mkTodoItem 1 "a" 3 (Some 1)).
Proof.
  destruct (add_get (mkTodoItem 2 "b" 3 (Some 1))
              [(1, mkTodoItem 1 "a" 3 (Some 1))]) as [_ Hother].
  rewrite Hother; [reflexivity | discriminate].
Defined.

(** X2: of two items added under the same id only the second one counts:
    the store is the same as if the first had never been added. *)
Theorem add_last_wins (a b : TodoItem) (d : TodoDatabase.db) :
  item_id a = item_id b ->
  TodoDatabase.add b (TodoDatabase.add a d) = TodoDatabase.add b d.
Proof.
  unfold TodoDatabase.add. intros ->. apply od_set_set.
Qed.

Lemma add_last_wins_witness :
  TodoDatabase.add (mkTodoItem 1 "new" 1 (Some 2))
    (TodoDatabase.add (mkTodoItem 1 "old" 3 (Some 1)) TodoDatabase.empty) =
  [(1, mkTodoItem 1 "new" 1 (Some 2))].
Proof.
  rewrite (add_last_wins (mkTodoItem 1 "old" 3 (Some 1))
             (mkTodoItem 1 "new" 1 (Some 2)) TodoDatabase.empty eq_refl).
  reflexivity.
Defined.

(** X3: [add] keeps the enumeration order of the store.  An item under an id
    that is stored takes the place of the old one, and the ids are
    enumerated as before; an item under a new id comes last. *)
Theorem add_order (item : TodoItem) (d : TodoDatabase.db) :
  (forall old, TodoDatabase.get (item_id item) d = inr old ->
     od_keys (TodoDatabase.add item d) = od_keys d /\
     List.length (TodoDatabase.add item d) = List.length d) /\
  (TodoDatabase.get (item_id item) d = inl (NoResultError (item_id item)) ->
     TodoDatabase.add item d = (d ++ [(item_id item, item)])%list).
Proof.
  unfold TodoDatabase.get, TodoDatabase.add. split.
  - intros old Hold.
    assert (Hkeys : od_keys (od_set (item_id item) item d) = od_keys d).
    { apply od_keys_set_present.
      destruct (decide (item_id item ∈ od_keys d)) as [?|Hnin]; [done |].
      apply od_get_None in Hnin. by rewrite Hnin in Hold. }
    split; [done |].
    apply (f_equal (@List.length Z)) in Hkeys.
    unfold od_keys in Hkeys. by rewrite !length_map in Hkeys.
  - intros Hnone. apply od_set_absent.
    by destruct (od_get (item_id item) d).
Qed.

Lemma add_order_witness :
  let d := [(1, mkTodoItem 1 "a" 3 (Some 1)); (2, mkTodoItem 2 "b" 3 (Some 1))] in
  od_keys (TodoDatabase.add (mkTodoItem 1 "c" 3 (Some 2)) d) = [1; 2] /\
  od_keys (TodoDatabase.add (mkTodoItem 0 "c" 3 (Some 2)) d) = [1; 2; 0].
Proof.
  intros d.
  destruct (add_order (mkTodoItem 1 "c" 3 (Some 2)) d) as [Hpresent _].
  destruct (Hpresent _ eq_refl) as [Hkeys _].
  destruct (add_order (mkTodoItem 0 "c" 3 (Some 2)) d) as [_ Habsent].
  split.
  - rewrite Hkeys. reflexivity.
  - rewrite Habsent; reflexivity.
Defined.

Lemma get_all_elem (user : option Z) (d : TodoDatabase.db) (item : TodoItem) :
  item ∈ TodoDatabase.get_all user d <->
  user_id item = user /\ exists k, (k, item) ∈ d.
Proof.
  unfold TodoDatabase.get_all, od_values.
  rewrite list_elem_of_filter, list_elem_of_In, in_map_iff.
  split; intros [Hu Hin]; (split; [done |]).
  - destruct Hin as ([k it] & Hit & Hin). simpl in Hit. subst it.
    exists k. by apply list_elem_of_In.
  - destruct Hin as [k Hin]. exists (k, item).
    split; [done | by apply list_elem_of_In].
Qed.

Lemma db_wf_get (d : TodoDatabase.db) (item : TodoItem) :
  db_wf d ->
  (exists k, (k, item) ∈ d) <-> TodoDatabase.get (item_id item) d = inr item.
Proof.
  intros [Hnd Hkey]. unfold TodoDatabase.get. split.
  - intros [k Hin]. rewrite <- (Hkey _ _ Hin) in Hin.
    by rewrite (od_elem_get _ _ _ Hnd Hin).
  - destruct (od_get (item_id item) d) as [it|] eqn:Hget; [|discriminate].
    intros [= ->]. exists (item_id item). by apply od_get_Some_elem.
Qed.

(** X4: in a store the service has built, the items [get_all] yields for a
    user are exactly the items [get] returns under their own id and that the
    user owns. *)
Theorem get_all_get (user : option Z) (d : TodoDatabase.db) (item : TodoItem) :
  reachable d ->
  (item ∈ TodoDatabase.get_all user d <->
   TodoDatabase.get (item_id item) d = inr item /\ user_id item = user).
Proof.
  intros Hreach. rewrite get_all_elem, (db_wf_get d item (reachable_wf d Hreach)).
  tauto.
Qed.

Lemma get_all_get_witness :
  let body : gmap string json :=
    <["id" := JInt 1]> (<["title" := JStr "Test"]> ∅) in
  let d := (TodoService.create (_make_identity (Some 1)) body
              TodoDatabase.empty).2 in
  mkTodoItem 1 "Test" 3 (Some 1) ∈ TodoDatabase.get_all (Some 1) d.
Proof.
  intros body d.
  apply (get_all_get (Some 1) d (mkTodoItem 1 "Test" 3 (Some 1))).
  - apply reachable_create, reachable_empty.
  - split; reflexivity.
Defined.

(** X5: an item added under a new id comes last in the listing of its owner
    and leaves the listing of every other user as it was. *)
Theorem get_all_add_new (user : option Z) (item : TodoItem)
    (d : TodoDatabase.db) :
  TodoDatabase.get (item_id item) d = inl (NoResultError (item_id item)) ->
  TodoDatabase.get_all user (TodoDatabase.add item d) =
    (TodoDatabase.get_all user d
     ++ (if decide (user_id item = user) then [item] else []))%list.
Proof.
  intros Hnew. unfold TodoDatabase.get in Hnew.
  unfold TodoDatabase.add, TodoDatabase.get_all, od_values.
  rewrite od_set_absent by (by destruct (od_get (item_id item) d)).
  by rewrite map_app, filter_app.
Qed.

Lemma get_all_add_new_witness :
  let d := [(1, mkTodoItem 1 "a" 3 (Some 1))] in
  TodoDatabase.get_all (Some 1)
    (TodoDatabase.add (mkTodoItem 2 "b" 3 (Some 1)) d) =
    [mkTodoItem 1 "a" 3 (Some 1); mkTodoItem 2 "b" 3 (Some 1)] /\
  TodoDatabase.get_all (Some 1)
    (TodoDatabase.add (mkTodoItem 2 "b" 3 (Some 7)) d) =
    [mkTodoItem 1 "a" 3 (Some 1)].
Proof.
  intros d. split.
  - rewrite (get_all_add_new (Some 1) (mkTodoItem 2 "b" 3 (Some 1)) d eq_refl).
    reflexivity.
  - rewrite (get_all_add_new (Some 1) (mkTodoItem 2 "b" 3 (Some 7)) d eq_refl).
    reflexivity.
Defined.

(** ** The service *)

(** X6: what an identity has created it can read back: for an identity that
    may create and that holds the user need of its own id, [read] of the id
    just created returns the very result [create] returned. *)
Theorem read_after_create
    (identity : Identity) (data : gmap string json) (d : TodoDatabase.db)
    (obj : TodoSchema.obj) :
  RoleNeed "authenticated_user" ∈ provides identity ->
  UserNeed (identity_id identity) ∈ provides identity ->
  load data = inr obj ->
  TodoService.read identity (TodoSchema.obj_id obj)
    (TodoService.create identity data d).2 =
  (TodoService.create identity data d).1.
Proof.
  intros Hrole Huser Hload.
  rewrite create_unfold, bool_decide_eq_true_2, Hload by done.
  cbn [fst snd]. unfold TodoService.read, TodoDatabase.get, TodoDatabase.add.
  cbn [item_id]. rewrite od_get_set_eq. cbn [rbind ok].
  rewrite require_permission_read. cbn [user_id].
  by rewrite bool_decide_eq_true_2.
Qed.

Lemma read_after_create_witness :
  let body : gmap string json :=
    <["id" := JInt 1]> (<["title" := JStr "Test"]> ∅) in
  TodoService.read (_make_identity (Some 1)) 1
    (TodoService.create (_make_identity (Some 1)) body TodoDatabase.empty).2 =
  inr (TodoItemResult.mk (mkTodoItem 1 "Test" 3 (Some 1))
         (_make_identity (Some 1)) TodoServiceConfig.links_item).
Proof.
  intros body.
  assert (Hread := read_after_create (_make_identity (Some 1)) body
                     TodoDatabase.empty (TodoSchema.mkObj 1 "Test" 3)).
  cbn [TodoSchema.obj_id] in Hread. rewrite Hread.
  - reflexivity.
  - apply list_elem_of_further, list_elem_of_here.
  - apply list_elem_of_here.
  - reflexivity.
Defined.

Lemma make_identity_user_need (user w : option Z) :
  UserNeed w ∈ provides (_make_identity user) <-> is_Some user /\ w = user.
Proof.
  destruct user as [u|]; simpl.
  - rewrite !elem_of_cons, elem_of_nil. split.
    + intros [[= ->]|[?|?]]; [|done..]. split; [by eexists | done].
    + intros [_ ->]. by left.
  - rewrite elem_of_nil. split; [done |]. by intros [[? ?] _].
Qed.

Lemma make_identity_role (user : option Z) :
  RoleNeed "authenticated_user" ∈ provides (_make_identity user) <->
  is_Some user.
Proof.
  destruct user as [u|]; simpl.
  - rewrite !elem_of_cons. split; [by eexists | intros _; right; by left].
  - rewrite elem_of_nil. split; [done | by intros [? ?]].
Qed.

(** X7: a user who creates under an id that another user owns locks that
    user out: the previous owner could read the item before, is refused with
    [PermissionDenied] afterwards and no longer finds the id in its listing,
    while the new owner reads it. *)
Theorem overwrite_locks_out_owner
    (u v : Z) (data : gmap string json) (d : TodoDatabase.db)
    (obj : TodoSchema.obj) (old : TodoItem) :
  reachable d ->
  u <> v ->
  load data = inr obj ->
  TodoDatabase.get (TodoSchema.obj_id obj) d = inr old ->
  user_id old = Some u ->
  let d' := (TodoService.create (_make_identity (Some v)) data d).2 in
  (exists r,
     TodoService.read (_make_identity (Some u)) (TodoSchema.obj_id obj) d =
       inr r) /\
  TodoService.read (_make_identity (Some u)) (TodoSchema.obj_id obj) d' =
    inl (PermissionDenied "read") /\
  (forall item, item ∈ TodoDatabase.get_all (Some u) d' ->
     item_id item <> TodoSchema.obj_id obj) /\
  (exists r,
     TodoService.read (_make_identity (Some v)) (TodoSchema.obj_id obj) d' =
       inr r).
Proof.
  intros Hreach Huv Hload Hold Howner d'.
  set (item := mkTodoItem (TodoSchema.obj_id obj) (TodoSchema.obj_title obj)
                 (TodoSchema.obj_priority obj) (Some v)).
  assert (Hd' : d' = TodoDatabase.add item d).
  { unfold d'. rewrite create_unfold, bool_decide_eq_true_2, Hload; [done |].
    by apply make_identity_role. }
  assert (Hget : TodoDatabase.get (TodoSchema.obj_id obj) d' = inr item).
  { rewrite Hd'. unfold TodoDatabase.get, TodoDatabase.add.
    cbn [item_id item]. by rewrite od_get_set_eq. }
  assert (Hwf : db_wf d') by (rewrite Hd'; apply db_wf_add, reachable_wf, Hreach).
  split; [|split; [|split]].
  - unfold TodoService.read. rewrite Hold. cbn [rbind ok].
    rewrite require_permission_read, bool_decide_eq_true_2; [by eexists |].
    rewrite Howner. by apply make_identity_user_need.
  - unfold TodoService.read. rewrite Hget. cbn [rbind ok].
    rewrite require_permission_read, bool_decide_eq_false_2; [done |].
    intros [_ [=]]%make_identity_user_need. done.
  - intros it Hin Hid. apply get_all_elem in Hin as [Hu Hin].
    apply (db_wf_get d' it Hwf) in Hin. rewrite Hid, Hget in Hin.
    injection Hin as <-. simpl in Hu. congruence.
  - unfold TodoService.read. rewrite Hget. cbn [rbind ok].
    rewrite require_permission_read, bool_decide_eq_true_2; [by eexists |].
    by apply make_identity_user_need.
Qed.

Lemma overwrite_locks_out_owner_witness :
  let body : gmap string json :=
    <["id" := JInt 1]> (<["title" := JStr "Test"]> ∅) in
  let d := (TodoService.create (_make_identity (Some 1)) body
              TodoDatabase.empty).2 in
  let d' := (TodoService.create (_make_identity (Some 2)) body d).2 in
  TodoService.read (_make_identity (Some 1)) 1 d' =
    inl (PermissionDenied "read").
Proof.
  intros body d d'.
  destruct (overwrite_locks_out_owner 1 2 body d (TodoSchema.mkObj 1 "Test" 3)
              (mkTodoItem 1 "Test" 3 (Some 1)))
    as (_ & Hdenied & _).
  - apply reachable_create, reachable_empty.
  - discriminate.
  - reflexivity.
  - reflexivity.
  - reflexivity.
  - exact Hdenied.
Defined.

(** ** The permission policy *)

(** X8: the policy can only be built for the three actions it declares and,
    for "read", only with an item.  For any other action name, and for
    "read" without an item, building it raises [AttributeError], so the
    permission check neither grants nor denies. *)
Theorem policy_unknown_action
    (identity : Identity) (action : string) (item : option TodoItem) :
  (action <> "create" -> action <> "read" -> action <> "search" ->
   check_permission identity action item =
     inl (AttributeError (String.append "can_" action)) /\
   require_permission identity action item =
     inl (AttributeError (String.append "can_" action))) /\
  check_permission identity "read" None = inl (AttributeError "user_id") /\
  require_permission identity "read" None = inl (AttributeError "user_id").
Proof.
  split; [|done]. intros Hc Hr Hs.
  unfold require_permission, check_permission, TodoPermissionPolicy.init,
    TodoPermissionPolicy.generators.
  by rewrite !decide_False by done.
Qed.

Lemma policy_unknown_action_witness :
  check_permission AnonymousIdentity "delete" None =
    inl (AttributeError "can_delete").
Proof.
  destruct (policy_unknown_action AnonymousIdentity "delete" None)
    as [Hunknown _].
  destruct Hunknown as [Hcheck _]; [discriminate.. |].
  exact Hcheck.
Defined.

(** ** The resource *)

Lemma make_identity_id (user : option Z) :
  identity_id (_make_identity user) = user.
Proof. by destruct user. Qed.

Lemma resource_create_unfold (user : option Z) (data : gmap string json)
    (d : TodoDatabase.db) (h : heap) :
  TodoResource.create user data d h =
    match user with
    | None => (inl (PermissionDenied "create"), d, h)
    | Some u =>
        match load data with
        | inl e => (inl e, d, h)
        | inr obj =>
            let item :=
              mkTodoItem (TodoSchema.obj_id obj) (TodoSchema.obj_title obj)
                (TodoSchema.obj_priority obj) (Some u) in
            (inr (item_repr (_make_identity (Some u)) item, 201),
             TodoDatabase.add item d, h)
        end
    end.
Proof.
  unfold TodoResource.create. rewrite create_unfold.
  destruct user as [u|]; [|done].
  rewrite bool_decide_eq_true_2 by (by apply make_identity_role).
  by destruct (load data).
Qed.

Lemma resource_read_unfold (user : option Z) (item_id_ : Z)
    (d : TodoDatabase.db) (h : heap) :
  TodoResource.read user item_id_ d h =
    match od_get item_id_ d with
    | None => (inl (NoResultError item_id_), h)
    | Some item =>
        if bool_decide (is_Some user /\ user_id item = user)
        then (inr (item_repr (_make_identity user) item, 200), h)
        else (inl (PermissionDenied "read"), h)
    end.
Proof.
  unfold TodoResource.read, TodoService.read, TodoDatabase.get.
  destruct (od_get item_id_ d) as [item|]; [|done].
  cbn [rbind ok]. rewrite require_permission_read.
  rewrite (bool_decide_ext _ _ (make_identity_user_need user (user_id item))).
  by case_bool_decide.
Qed.

Lemma resource_search_unfold (user : option Z) (page_ size_ : Z)
    (d : TodoDatabase.db) (h : heap) :
  1 <= page_ -> 1 <= size_ ->
  let args := [("page", page_); ("size", size_)] in
  let items := TodoDatabase.get_all user d in
  let p := mkPagination size_ page_ (Z.of_nat (List.length items)) in
  TodoResource.search user page_ size_ d h =
    (inr (list_repr (_make_identity user) items p args, 200),
     ((h ++ [args]) ++ search_cells p args)%list).
Proof.
  intros Hpage Hsize args items p.
  unfold TodoResource.search, TodoService.search.
  rewrite require_permission_search. unfold alloc, ok. cbn iota beta.
  rewrite (list_to_dict _ _ _ _ args) by apply heap_lookup_alloc.
  unfold list_outcome.
  change (od_get "size" args) with (Some size_).
  change (od_get "page" args) with (Some page_).
  cbn iota. rewrite compute_inr by done.
  by rewrite make_identity_id.
Qed.

Lemma resource_reachable_owned (d : TodoDatabase.db) :
  resource_reachable d ->
  forall k item, (k, item) ∈ d -> is_Some (user_id item).
Proof.
  induction 1 as [|user data d h _ IH]; intros k item Hin.
  - by apply elem_of_nil in Hin.
  - rewrite resource_create_unfold in Hin.
    destruct user as [u|]; [|by apply (IH k)].
    destruct (load data) as [e|obj]; [by apply (IH k) |].
    cbn [fst snd] in Hin.
    apply od_set_elem in Hin as [[= _ ->]|Hin]; [by eexists | by apply (IH k)].
Qed.

(** X9: through the resource every stored item gets an owner, since a
    request without a user may not create.  So for a store the resource has
    built the anonymous listing is empty: a search without a user answers
    200 with no hits and total 0, whatever the page. *)
Theorem anonymous_search_empty (d : TodoDatabase.db) :
  resource_reachable d ->
  (forall k item, (k, item) ∈ d -> exists u, user_id item = Some u) /\
  TodoDatabase.get_all None d = [] /\
  forall page_ size_ h, 1 <= page_ -> 1 <= size_ ->
    exists links h',
      TodoResource.search None page_ size_ d h =
        (inr (JDict [ ("hits", JDict [("hits", JList []); ("total", JInt 0)]);
                      ("links", links) ], 200), h').
Proof.
  intros Hreach.
  assert (Hnone : TodoDatabase.get_all None d = []).
  { destruct (TodoDatabase.get_all None d) as [|item items] eqn:Hall; [done |].
    assert (Hin : item ∈ TodoDatabase.get_all None d)
      by (rewrite Hall; apply list_elem_of_here).
    apply get_all_elem in Hin as [Hu [k Hin]].
    apply (resource_reachable_owned d Hreach) in Hin as [u Hin]. congruence. }
  split; [|split; [done |]].
  - intros k item Hin. by apply (resource_reachable_owned d Hreach) in Hin.
  - intros page_ size_ h Hpage Hsize.
    rewrite resource_search_unfold by done. rewrite Hnone.
    eexists _, _. unfold list_repr, py_slice.
    by rewrite drop_nil, take_nil.
Qed.

Lemma anonymous_search_empty_witness :
  let body : gmap string json :=
    <["id" := JInt 1]> (<["title" := JStr "Test"]> ∅) in
  let d := (TodoResource.create (Some 1) body TodoDatabase.empty []).1.2 in
  d = [(1, mkTodoItem 1 "Test" 3 (Some 1))] /\
  TodoDatabase.get_all None d = [].
Proof.
  intros body d. split; [reflexivity |].
  apply (anonymous_search_empty d).
  apply resource_reachable_create, resource_reachable_empty.
Defined.

Lemma py_slice_elem {A : Type} (l : list A) (a b : Z) (x : A) :
  x ∈ py_slice l a b -> x ∈ l.
Proof.
  unfold py_slice. intros Hin.
  apply subseteq_take in Hin. by apply subseteq_drop in Hin.
Qed.

(** X10: whatever the resource returns for an item marks the caller as its
    owner: a create answers 201 and a read answers 200, and in both the
    representation has [is_owner] true; a read of an item of somebody else
    is never answered with a representation. *)
Theorem resource_item_is_owner
    (user : option Z) (d : TodoDatabase.db) (h : heap) :
  (forall data repr code d' h',
     TodoResource.create user data d h = (inr (repr, code), d', h') ->
     code = 201 /\ json_get "is_owner" repr = Some (JBool true)) /\
  (forall item_id_ repr code h',
     TodoResource.read user item_id_ d h = (inr (repr, code), h') ->
     code = 200 /\ json_get "is_owner" repr = Some (JBool true) /\
     exists item,
       TodoDatabase.get item_id_ d = inr item /\ user_id item = user).
Proof.
  split.
  - intros data repr code d' h'. rewrite resource_create_unfold.
    destruct user as [u|]; [|discriminate].
    destruct (load data) as [e|obj]; [discriminate |].
    intros [= <- <- _ _]. split; [done |]. simpl.
    by rewrite bool_decide_eq_true_2.
  - intros item_id_ repr code h'. rewrite resource_read_unfold.
    unfold TodoDatabase.get.
    destruct (od_get item_id_ d) as [item|]; [|discriminate].
    case_bool_decide as Hown; [|discriminate].
    destruct Hown as [_ Hown]. intros [= <- <- _].
    split; [done |]. split; [|by exists item]. simpl.
    rewrite make_identity_id. by rewrite bool_decide_eq_true_2.
Qed.

Lemma resource_item_is_owner_witness :
  exists repr,
    (TodoResource.read (Some 1) 1 [(1, mkTodoItem 1 "Test" 3 (Some 1))] []).1 =
      inr (repr, 200) /\
    json_get "is_owner" repr = Some (JBool true).
Proof.
  destruct (resource_item_is_owner (Some 1)
              [(1, mkTodoItem 1 "Test" 3 (Some 1))] []) as [_ Hread].
  destruct (Hread 1 (item_repr (_make_identity (Some 1))
                       (mkTodoItem 1 "Test" 3 (Some 1))) 200 [] eq_refl)
    as (_ & Howner & _).
  eexists. split; [reflexivity | exact Howner].
Defined.

(** X11: a search through the resource never shows an item of somebody
    else: every hit is the representation of an item from the caller's own
    listing, with [is_owner] true. *)
Theorem resource_search_hits_owned
    (user : option Z) (page_ size_ : Z) (d : TodoDatabase.db) (h : heap)
    (repr : json) (code : Z) (h' : heap) :
  TodoResource.search user page_ size_ d h = (inr (repr, code), h') ->
  code = 200 /\
  exists hits,
    json_hits repr = Some hits /\
    forall hit, hit ∈ hits ->
      json_get "is_owner" hit = Some (JBool true) /\
      exists item,
        hit = item_repr (_make_identity user) item /\
        item ∈ TodoDatabase.get_all user d.
Proof.
  unfold TodoResource.search, TodoService.search.
  rewrite require_permission_search. unfold alloc, ok. cbn iota beta.
  rewrite (list_to_dict _ _ _ _ [("page", page_); ("size", size_)])
    by apply heap_lookup_alloc.
  unfold list_outcome.
  change (od_get "size" _) with (Some size_).
  change (od_get "page" _) with (Some page_).
  cbn iota. rewrite make_identity_id.
  destruct (compute size_ page_ _) as [e|p]; [discriminate |].
  cbn [rbind ok fst snd]. intros [= <- <- _].
  split; [done |]. eexists. split; [reflexivity |].
  intros hit Hin. apply list_elem_of_In, in_map_iff in Hin as (item & <- & Hin).
  apply list_elem_of_In, py_slice_elem in Hin.
  split; [|by exists item].
  apply get_all_elem in Hin as [Hown _]. simpl.
  rewrite make_identity_id. by rewrite bool_decide_eq_true_2.
Qed.

Lemma resource_search_hits_owned_witness :
  let d := [ (1, mkTodoItem 1 "a" 3 (Some 1)); (2, mkTodoItem 2 "b" 3 (Some 2)) ] in
  exists repr,
    (TodoResource.search (Some 1) 1 10 d []).1 = inr (repr, 200) /\
    json_hits repr =
      Some [item_repr (_make_identity (Some 1)) (mkTodoItem 1 "a" 3 (Some 1))].
Proof.
  intros d.
  destruct (TodoResource.search (Some 1) 1 10 d []) as [[e|[repr code]] h']
    eqn:Hsearch; [discriminate |].
  destruct (resource_search_hits_owned (Some 1) 1 10 d [] repr code h' Hsearch)
    as [-> _].
  exists repr. split; [reflexivity |].
  injection Hsearch as <- _. reflexivity.
Defined.

(** X12: every exception a view of the resource raises has an error
    handler.  A create fails only with 403 or 400 and then leaves the store
    as it was; a read fails only with 404 or 403; a search with a page and a
    size from 1 on does not fail, for any user or none. *)
Theorem resource_errors_handled
    (user : option Z) (d : TodoDatabase.db) (h : heap) :
  (forall data e d' h',
     TodoResource.create user data d h = (inl e, d', h') ->
     d' = d /\
     (TodoResource.error_handlers e = Some (403, "Forbidden") \/
      TodoResource.error_handlers e = Some (400, "Bad request"))) /\
  (forall item_id_ e h',
     TodoResource.read user item_id_ d h = (inl e, h') ->
     TodoResource.error_handlers e = Some (404, "Not found") \/
     TodoResource.error_handlers e = Some (403, "Forbidden")) /\
  (forall page_ size_, 1 <= page_ -> 1 <= size_ ->
     exists repr h',
       TodoResource.search user page_ size_ d h = (inr (repr, 200), h')).
Proof.
  split; [|split].
  - intros data e d' h'. rewrite resource_create_unfold.
    destruct user as [u|].
    + destruct (load data) as [e'|obj] eqn:Hload; [|discriminate].
      intros [= <- <- _]. split; [done |]. right.
      by destruct (load_inl _ _ Hload) as [fields ->].
    + intros [= <- <- _]. split; [done | by left].
  - intros item_id_ e h'. rewrite resource_read_unfold.
    destruct (od_get item_id_ d) as [item|].
    + case_bool_decide; [discriminate |]. intros [= <- _]. by right.
    + intros [= <- _]. by left.
  - intros page_ size_ Hpage Hsize.
    rewrite resource_search_unfold by done. by eexists _, _.
Qed.

Lemma resource_errors_handled_witness :
  exists repr h',
    TodoResource.search None 2 5 [(1, mkTodoItem 1 "a" 3 (Some 1))] [] =
      (inr (repr, 200), h').
Proof.
  destruct (resource_errors_handled None [(1, mkTodoItem 1 "a" 3 (Some 1))] [])
    as (_ & _ & Hsearch).
  apply (Hsearch 2 5); lia.
Defined.

(** X13: page [k] of size [n] shows the [n] items of the caller's listing
    that follow the first [(k-1)*n], fewer at the end of the listing and none
    beyond it, and the total is the length of the whole listing. *)
Theorem resource_search_page
    (user : option Z) (page_ size_ : Z) (d : TodoDatabase.db) (h : heap) :
  1 <= page_ -> 1 <= size_ ->
  let items := TodoDatabase.get_all user d in
  exists links h',
    TodoResource.search user page_ size_ d h =
      (inr (JDict [ ("hits",
                     JDict [ ("hits",
                              JList (map (item_repr (_make_identity user))
                                       (take (Z.to_nat size_)
                                          (drop (Z.to_nat ((page_ - 1) * size_))
                                             items))));
                             ("total", JInt (Z.of_nat (List.length items))) ]);
                    ("links", links) ], 200), h').
Proof.
  intros Hpage Hsize items.
  rewrite resource_search_unfold by done. fold items.
  set (p := mkPagination size_ page_ (Z.of_nat (List.length items))).
  assert (Hslice : py_slice items (from_idx p) (to_idx p) =
            take (Z.to_nat size_) (drop (Z.to_nat ((page_ - 1) * size_)) items)).
  { destruct (window_bounds p) as [Hft Ht]; [done | done | simpl; lia |].
    rewrite py_slice_window by done.
    assert (Hx : 0 <= (page_ - 1) * size_) by (apply Z.mul_nonneg_nonneg; lia).
    unfold from_idx, to_idx, clamp in *. simpl in *.
    set (x := (page_ - 1) * size_) in *.
    set (n := Z.of_nat (List.length items)) in *.
    assert (Hn : List.length items = Z.to_nat n) by (unfold n; lia).
    destruct (Z.le_gt_cases n x) as [Hbeyond|Hwithin].
    - rewrite !drop_ge by lia. by rewrite !take_nil.
    - replace (Z.max 0 (Z.min x n)) with x by lia.
      destruct (Z.le_gt_cases (x + size_) n) as [Hfull|Hlast].
      + f_equal. lia.
      + rewrite !take_ge; [done | rewrite length_drop; lia..]. }
  eexists _, _. unfold list_repr. by rewrite Hslice.
Qed.

Lemma resource_search_page_witness :
  let d := [ (1, mkTodoItem 1 "a" 3 (Some 1)); (2, mkTodoItem 2 "b" 3 (Some 1));
             (3, mkTodoItem 3 "c" 3 (Some 1)) ] in
  exists repr,
    (TodoResource.search (Some 1) 2 2 d []).1 = inr (repr, 200) /\
    json_hits repr =
      Some [item_repr (_make_identity (Some 1)) (mkTodoItem 3 "c" 3 (Some 1))].
Proof.
  intros d.
  destruct (resource_search_page (Some 1) 2 2 d []) as (links & h' & Hsearch);
    [lia | lia |].
  rewrite Hsearch. eexists. split; reflexivity.
Defined.

Lemma has_next_iff (size_ page_ total_ : Z) :
  1 <= page_ -> 1 <= size_ -> 0 <= total_ ->
  has_next (mkPagination size_ page_ total_) = true <-> page_ * size_ < total_.
Proof.
  intros Hpage Hsize Htotal. unfold has_next, to_idx, clamp. simpl.
  assert (0 <= (page_ - 1) * size_) by (apply Z.mul_nonneg_nonneg; lia).
  rewrite Z.ltb_lt. lia.
Qed.

Lemma json_link_list_repr (rel : string) (identity : Identity)
    (items : list TodoItem) (p : Pagination) (args : odict string Z) :
  json_link rel (list_repr identity items p args) =
    JStr <$> od_get rel (search_links p args).
Proof.
  unfold json_link, list_repr, json_of_links. simpl.
  induction (search_links p args) as [|[k v] links IH]; simpl; [done |].
  by destruct (decide (rel = k)).
Qed.

Lemma search_links_get (p : Pagination) (args : odict string Z) :
  od_get "self" (search_links p args) = Some (search_uri args) /\
  od_get "prev" (search_links p args) =
    (if has_prev p then Some (search_uri (od_set "page" (page p - 1) args))
     else None) /\
  od_get "next" (search_links p args) =
    (if has_next p then Some (search_uri (od_set "page" (page p + 1) args))
     else None).
Proof.
  unfold search_links. by destruct (has_prev p), (has_next p).
Qed.

(** X14: the links of consecutive pages fit together.  The [prev] link of
    page [k+1] is the [self] link of page [k], and when page [k] does not
    reach the end of the listing its [next] link is the [self] link of page
    [k+1]; on the last page there is no [next] link. *)
Theorem resource_search_navigation
    (user : option Z) (page_ size_ : Z) (d : TodoDatabase.db) (h1 h2 : heap) :
  1 <= page_ -> 1 <= size_ ->
  let total_ := Z.of_nat (List.length (TodoDatabase.get_all user d)) in
  exists r1 r2 h1' h2',
    TodoResource.search user page_ size_ d h1 = (inr (r1, 200), h1') /\
    TodoResource.search user (page_ + 1) size_ d h2 = (inr (r2, 200), h2') /\
    json_link "self" r1 = Some (JStr (search_uri [("page", page_); ("size", size_)])) /\
    json_link "prev" r2 = json_link "self" r1 /\
    (page_ * size_ < total_ -> json_link "next" r1 = json_link "self" r2) /\
    (total_ <= page_ * size_ -> json_link "next" r1 = None).
Proof.
  intros Hpage Hsize total_.
  rewrite !resource_search_unfold by lia. cbv zeta. fold total_.
  eexists _, _, _, _. split; [reflexivity |]. split; [reflexivity |].
  rewrite !json_link_list_repr.
  set (p1 := mkPagination size_ page_ total_).
  set (p2 := mkPagination size_ (page_ + 1) total_).
  destruct (search_links_get p1 [("page", page_); ("size", size_)])
    as (Hself1 & _ & Hnext1).
  destruct (search_links_get p2 [("page", page_ + 1); ("size", size_)])
    as (Hself2 & Hprev2 & _).
  assert (Hhas_prev : has_prev p2 = true).
  { unfold has_prev. simpl. apply Z.ltb_lt. lia. }
  assert (Hhas_next := has_next_iff size_ page_ total_ Hpage Hsize
                         ltac:(unfold total_; lia)).
  fold p1 in Hhas_next.
  rewrite Hself1, Hself2, Hprev2, Hnext1, Hhas_prev. simpl.
  replace (page_ + 1 - 1) with page_ by lia.
  split; [done |]. split; [done |]. split.
  - intros Hmore. apply Hhas_next in Hmore. by rewrite Hmore.
  - intros Hlast. destruct (has_next p1); [|done].
    destruct Hhas_next as [Hlt _]. specialize (Hlt eq_refl). lia.
Qed.

(** Three items of user 1 in pages of one. *)
Lemma resource_search_navigation_witness :
  let d := [ (1, mkTodoItem 1 "a" 3 (Some 1)); (2, mkTodoItem 2 "b" 3 (Some 1));
             (3, mkTodoItem 3 "c" 3 (Some 1)) ] in
  exists r1 r2,
    (TodoResource.search (Some 1) 1 1 d []).1 = inr (r1, 200) /\
    (TodoResource.search (Some 1) 2 1 d []).1 = inr (r2, 200) /\
    json_link "next" r1 = json_link "self" r2 /\
    json_link "prev" r2 = json_link "self" r1.
Proof.
  intros d.
  destruct (resource_search_navigation (Some 1) 1 1 d [] [])
    as (r1 & r2 & h1' & h2' & Hs1 & Hs2 & _ & Hprev & Hnext & _); [lia | lia |].
  exists r1, r2. change (1 + 1) with 2 in Hs2. rewrite Hs1, Hs2.
  split; [reflexivity |]. split; [reflexivity |].
  split; [apply Hnext; simpl; lia | exact Hprev].
Defined.

(** ** Item links *)

Lemma string_of_Z_inj (z1 z2 : Z) : string_of_Z z1 = string_of_Z z2 -> z1 = z2.
Proof.
  unfold string_of_Z. intros Heq. apply DecimalZ.to_int_inj.
  assert (Hparse : forall z,
            NilZero.int_of_string (NilZero.string_of_int (Z.to_int z)) =
              Some (Z.to_int z)).
  { intros z. apply NilZero.isi; destruct z as [|q|q]; simpl; try discriminate.
    - intros [= Hnil]. by apply DecimalPos.Unsigned.to_uint_nonnil in Hnil.
    - intros [= Hnil]. by apply DecimalPos.Unsigned.to_uint_nonnil in Hnil. }
  assert (Hsome : Some (Z.to_int z1) = Some (Z.to_int z2))
    by (rewrite <- !Hparse; by rewrite Heq).
  by injection Hsome.
Qed.

(** X15: the [self] link identifies the item: two items have the same links
    iff they have the same id. *)
Theorem item_links_inj (a b : TodoItem) (h : heap) :
  (exists la lb,
     LinksTemplate_expand TodoServiceConfig.links_item [] a h = inr (la, h) /\
     LinksTemplate_expand TodoServiceConfig.links_item [] b h = inr (lb, h) /\
     (la = lb <-> item_id a = item_id b)).
Proof.
  exists (item_links a), (item_links b).
  split; [apply links_item_expand |]. split; [apply links_item_expand |].
  unfold item_links. split.
  - intros [= Heq]. by apply string_of_Z_inj.
  - by intros ->.
Qed.

(** ** Who may do what *)

(** X16: for the identities the resource builds, a request may create iff it
    names a user, may read an item iff it names the owner of the item, and
    may always search. *)
Theorem resource_access (user : option Z) (item : TodoItem) :
  check_permission (_make_identity user) "create" None =
    inr (bool_decide (is_Some user)) /\
  check_permission (_make_identity user) "read" (Some item) =
    inr (bool_decide (is_Some user /\ user_id item = user)) /\
  check_permission (_make_identity user) "search" None = inr true.
Proof.
  unfold check_permission. simpl. rewrite !orb_false_r.
  split; [|split; [|done]]; f_equal; apply bool_decide_ext.
  - apply make_identity_role.
  - apply make_identity_user_need.
Qed.
